(** * PADMA front end: form validation, image pipeline, prediction client,
      result renderer.

    A shallow embedding of [PADMA.py].  The Python program is a Streamlit
    script: [main] draws a form, and on submission validates it, opens the
    uploaded picture, equalises it ([process_image]), posts it to the
    prediction service ([predict_image]) and renders the answer.

    Conventions of the embedding.
    - A Python [bytes] object is a [list byte]; a Python [str] is the
      [string] of its UTF-8 encoding, so that a character takes one to four
      bytes ([Utf8]); ASCII text has one byte per character.
    - Python's [None] and JSON's [null] are the same value, [JNull].
    - A Python float is an IEEE double; a finite one is kept as the exact
      dyadic rational [(-1)^s * m * 2^e] it denotes.
    - Calls that draw on the page or reach the network are recorded, in
      order, in a trace of [Event]s.
    - An uncaught Python exception ends the run with [inl exn].
    - The imaging, HTTP and formatting libraries the script imports are not
      part of the repository: what the script needs of them is gathered in
      the class [Lib] (operations) and [LibLaws] (the facts about them the
      proofs rest on); what is standard and small (base64, the channel
      shuffles of OpenCV, [raise_for_status], ['.2f'] formatting) is
      written out. *)

From Stdlib Require Import ZArith NArith List String Ascii Bool Lia.
From Stdlib Require Import Strings.Byte DecimalString FinFun.
Import ListNotations.

Local Open Scope string_scope.
Local Open Scope list_scope.

(* ===================================================================== *)
(** * Bytes and text *)

Module Bytes.

(** The byte whose value is [n mod 256]. *)
Definition of_N_wrap (n : N) : byte :=
  match Byte.of_N (n mod 256) with
  | Some b => b
  | None => Byte.x00
  end.

(** [bytes.decode] on ASCII data, [str.encode] on ASCII text: the
    characters are the bytes. *)
Definition to_str (bs : list byte) : string := string_of_list_byte bs.
Definition of_str (s : string) : list byte := list_byte_of_string s.

Definition is_ascii (b : byte) : bool := (Byte.to_N b <? 128)%N.

(** Big-endian 32-bit fields, as PNG chunk headers hold them. *)
Definition be32 (n : N) : list byte :=
  [of_N_wrap (n / 16777216); of_N_wrap (n / 65536); of_N_wrap (n / 256);
   of_N_wrap n].

Definition of_be32 (bs : list byte) : N :=
  fold_left (fun acc b => (acc * 256 + Byte.to_N b)%N) bs 0%N.

Definition eqb_list (a b : list byte) : bool :=
  if list_eq_dec Byte.byte_eq_dec a b then true else false.

End Bytes.

(** Decimal text of a natural number and of an integer, as [str(int)]
    prints it. *)
Definition dec_of_N (n : N) : string := NilZero.string_of_uint (N.to_uint n).

Definition dec_of_Z (z : Z) : string :=
  if (z <? 0)%Z then "-" ++ dec_of_N (Z.to_N (- z)) else dec_of_N (Z.to_N z).

(** [sep.join(parts)]. *)
Definition join (sep : string) (parts : list string) : string :=
  String.concat sep parts.

(* ===================================================================== *)
(** * Characters of a [str] *)

Module Utf8.

(** A Unicode code point, surrogates included ([json] hands a lone
    [\ud800] escape through as one character). *)
Definition is_code_point (c : N) : bool := (c <? 1114112)%N.

(** The bytes of one character. *)
Definition encode_point (c : N) : string :=
  let lead n := ascii_of_N n in
  let cont n := ascii_of_N (128 + n mod 64) in
  (if c <? 128 then String (lead c) EmptyString
   else if c <? 2048 then
     String (lead (192 + c / 64)) (String (cont c) EmptyString)
   else if c <? 65536 then
     String (lead (224 + c / 4096))
       (String (cont (c / 64)) (String (cont c) EmptyString))
   else
     String (lead (240 + c / 262144))
       (String (cont (c / 4096))
          (String (cont (c / 64)) (String (cont c) EmptyString))))%N.

(** The text of a sequence of characters. *)
Definition encode (text : list N) : string :=
  fold_right String.append EmptyString (map encode_point text).

(** The bytes [10xxxxxx], which continue the character begun before
    them. *)
Definition is_continuation (c : ascii) : bool :=
  ((128 <=? N_of_ascii c) && (N_of_ascii c <? 192))%N.

(** A text that begins in the middle of a character. *)
Definition starts_inside (s : string) : bool :=
  match s with
  | String c _ => is_continuation c
  | EmptyString => false
  end.

(** The characters of a text, each as the text of length one that holds
    it: a byte opens a character, the continuation bytes that follow it
    belong to it. *)
Fixpoint characters (s : string) : list string :=
  match s with
  | EmptyString => []
  | String c s' =>
      match characters s' with
      | p :: ps =>
          if starts_inside s' then String c p :: ps
          else String c EmptyString :: p :: ps
      | [] => [String c EmptyString]
      end
  end.

End Utf8.

(* ===================================================================== *)
(** * base64.b64encode (RFC 4648, standard alphabet, with padding) *)

Module Base64.

Definition alphabet : list byte :=
  Bytes.of_str
    "ABCDEFGHIJKLMNOPQRSTUVWXYZabcdefghijklmnopqrstuvwxyz0123456789+/".

Definition pad : byte := "="%byte.

Definition char (n : N) : byte := nth (N.to_nat n) alphabet pad.

Fixpoint index_from (i : N) (c : byte) (l : list byte) : option N :=
  match l with
  | [] => None
  | x :: l' => if Byte.eqb x c then Some i else index_from (N.succ i) c l'
  end.

Definition index (c : byte) : option N := index_from 0 c alphabet.

(** Three bytes make four sextets; one or two trailing bytes are padded
    with ['=']. *)
Fixpoint b64encode (bs : list byte) : list byte :=
  match bs with
  | [] => []
  | [b0] =>
      let n0 := Byte.to_N b0 in
      [char (n0 / 4); char ((n0 mod 4) * 16); pad; pad]
  | [b0; b1] =>
      let n0 := Byte.to_N b0 in
      let n1 := Byte.to_N b1 in
      [char (n0 / 4); char ((n0 mod 4) * 16 + n1 / 16);
       char ((n1 mod 16) * 4); pad]
  | b0 :: b1 :: b2 :: rest =>
      let n0 := Byte.to_N b0 in
      let n1 := Byte.to_N b1 in
      let n2 := Byte.to_N b2 in
      char (n0 / 4) :: char ((n0 mod 4) * 16 + n1 / 16)
        :: char ((n1 mod 16) * 4 + n2 / 64) :: char (n2 mod 64)
        :: b64encode rest
  end%N.

(** The reading a base64 consumer makes of the text: four characters give
    three bytes, padding is allowed in the last group only, any other
    character is refused. *)
Fixpoint b64decode (cs : list byte) : option (list byte) :=
  match cs with
  | [] => Some []
  | c0 :: c1 :: c2 :: c3 :: rest =>
      match index c0, index c1 with
      | Some s0, Some s1 =>
          let b0 := Bytes.of_N_wrap (s0 * 4 + s1 / 16) in
          if Byte.eqb c3 pad then
            match rest with
            | [] =>
                if Byte.eqb c2 pad then Some [b0]
                else
                  match index c2 with
                  | Some s2 =>
                      Some [b0; Bytes.of_N_wrap ((s1 mod 16) * 16 + s2 / 4)]
                  | None => None
                  end
            | _ :: _ => None
            end
          else
            match index c2, index c3, b64decode rest with
            | Some s2, Some s3, Some tl =>
                Some (b0 :: Bytes.of_N_wrap ((s1 mod 16) * 16 + s2 / 4)
                         :: Bytes.of_N_wrap ((s2 mod 4) * 64 + s3) :: tl)
            | _, _, _ => None
            end
      | _, _ => None
      end
  | _ => None
  end%N.

End Base64.

(* ===================================================================== *)
(** * Python floats and the ['.2f'] format *)

Module Float.

(** An IEEE double: not-a-number, an infinity, or the finite value
    [(-1)^neg * m * 2^e]. *)
Inductive float64 :=
| NaN
| Inf (neg : bool)
| Fin (neg : bool) (m : N) (e : Z).

(** [n / d] rounded to the nearest integer, ties to the even one. *)
Definition round_half_even (n d : N) : N :=
  let q := (n / d)%N in
  let r := (n mod d)%N in
  match (2 * r ?= d)%N with
  | Lt => q
  | Gt => (q + 1)%N
  | Eq => if N.even q then q else (q + 1)%N
  end.

(** [m * 2^e * 100], correctly rounded. *)
Definition hundredths (m : N) (e : Z) : N :=
  match e with
  | Z0 => (m * 100)%N
  | Zpos p => (m * 100 * 2 ^ Npos p)%N
  | Zneg p => round_half_even (m * 100) (2 ^ Npos p)
  end.

Definition two_digits (n : N) : string :=
  if (n <? 10)%N then "0" ++ dec_of_N n else dec_of_N n.

(** [f"{x:.2f}"]: the exact binary value rounded to two decimals. *)
Definition format_2f (x : float64) : string :=
  match x with
  | NaN => "nan"
  | Inf neg => if neg then "-inf" else "inf"
  | Fin neg m e =>
      let h := hundredths m e in
      (if neg then "-" else "") ++ dec_of_N (h / 100) ++ "."
        ++ two_digits (h mod 100)
  end.

(** [float(i)] for a Python int: the nearest double, [OverflowError]
    ([None]) beyond the largest one. *)
Definition of_int (z : Z) : option float64 :=
  let a := Z.abs_N z in
  let neg := (z <? 0)%Z in
  if (a <? 2 ^ 53)%N then Some (Fin neg a 0)
  else
    let k := (N.log2 a - 52)%N in
    let m := round_half_even a (2 ^ k) in
    if (2 ^ 1024 <=? m * 2 ^ k)%N then None
    else Some (Fin neg m (Z.of_N k)).

Definition of_bool (b : bool) : float64 := Fin false (if b then 1 else 0) 0.

(** [bool(x)]: everything but zero. *)
Definition truthy (x : float64) : bool :=
  match x with
  | Fin _ m _ => negb (m =? 0)%N
  | _ => true
  end.

(** [m * 2^(-k)] with a 53-bit [m] is a double nearest to the decimal
    [num / den]: this is the float a JSON parser makes of that literal. *)
Definition nearest_to (num den : N) (m k : N) : Prop :=
  (2 ^ 52 <= m < 2 ^ 53)%N /\
  (2 * Z.abs (Z.of_N (m * den) - Z.of_N (num * 2 ^ k)) <= Z.of_N den)%Z.

End Float.

(* ===================================================================== *)
(** * JSON values, as [response.json()] returns them *)

#[local] Set Warnings "-register-all".

Inductive json :=
| JNull
| JBool (b : bool)
| JInt (z : Z)
| JFloat (x : Float.float64)
| JStr (s : string)
| JArr (items : list json)
| JObj (members : list (string * json)).

(** Uncaught Python exceptions, by class. *)
Inductive Exn :=
| TypeError | KeyError | ValueError | OverflowError | AttributeError
| OSError | UnidentifiedImageError | cv2_error.

Module Py.

Fixpoint lookup (k : string) (members : list (string * json)) : option json :=
  match members with
  | [] => None
  | (k', v) :: rest => if String.eqb k' k then Some v else lookup k rest
  end.

Fixpoint is_infix (k s : string) : bool :=
  if String.prefix k s then true
  else
    match s with
    | EmptyString => false
    | String _ s' => is_infix k s'
    end.

(** [bool(v)], the test of [if v:]. *)
Definition truthy (v : json) : bool :=
  match v with
  | JNull => false
  | JBool b => b
  | JInt z => negb (z =? 0)%Z
  | JFloat x => Float.truthy x
  | JStr s => negb (String.eqb s "")
  | JArr items => match items with [] => false | _ => true end
  | JObj members => match members with [] => false | _ => true end
  end.

Definition is_str (k : string) (v : json) : bool :=
  match v with
  | JStr s => String.eqb s k
  | _ => false
  end.

(** [k in v] for a string [k]: a key of a dict, an element of a list, a
    substring of a string; [TypeError] on the rest. *)
Definition contains (k : string) (v : json) : Exn + bool :=
  match v with
  | JObj members => inr (match lookup k members with Some _ => true | None => false end)
  | JArr items => inr (existsb (is_str k) items)
  | JStr s => inr (is_infix k s)
  | _ => inl TypeError
  end.

(** [v[k]] for a string [k]. *)
Definition getitem (v : json) (k : string) : Exn + json :=
  match v with
  | JObj members =>
      match lookup k members with
      | Some x => inr x
      | None => inl KeyError
      end
  | _ => inl TypeError
  end.

(** [iter(v)], unrolled: the elements of a list, the characters of a
    string - one [str] of length one for each code point -, the keys of a
    dict. *)
Definition iter (v : json) : Exn + list json :=
  match v with
  | JArr items => inr items
  | JStr s => inr (map JStr (Utf8.characters s))
  | JObj members => inr (map (fun kv => JStr (fst kv)) members)
  | _ => inl TypeError
  end.

End Py.

(* ===================================================================== *)
(** * Pillow images and NumPy arrays *)

(** A Pillow image: its mode, its size as (width, height), its raster,
    row by row, the bands of a pixel side by side. *)
Record Image := mkImage {
  mode : string;
  size : nat * nat;
  data : list byte
}.

(** A [uint8] array: its shape and its elements in row-major order. *)
Record ndarray := mkArray {
  shape : list nat;
  buf : list byte
}.

(** Bands of the 8-bit modes. *)
Definition bands (m : string) : nat :=
  if String.eqb m "RGB" || String.eqb m "YCbCr" || String.eqb m "LAB"
     || String.eqb m "HSV" then 3
  else if String.eqb m "RGBA" || String.eqb m "CMYK" || String.eqb m "RGBX"
  then 4
  else if String.eqb m "LA" || String.eqb m "PA" then 2
  else 1.

Definition wf_image (i : Image) : Prop :=
  List.length (data i) = fst (size i) * snd (size i) * bands (mode i).

(** [np.array(image)]: height first, the band axis only when there is
    more than one band. *)
Definition np_array (i : Image) : ndarray :=
  let (w, h) := size i in
  {| shape := if Nat.eqb (bands (mode i)) 1 then [h; w]
              else [h; w; bands (mode i)];
     buf := data i |}.

(** [Image.fromarray(a)] for [uint8] arrays. *)
Definition fromarray (a : ndarray) : Exn + Image :=
  match shape a with
  | [h; w] => inr {| mode := "L"; size := (w, h); data := buf a |}
  | [h; w; 3] => inr {| mode := "RGB"; size := (w, h); data := buf a |}
  | [h; w; 4] => inr {| mode := "RGBA"; size := (w, h); data := buf a |}
  | _ => inl TypeError
  end.

Module cv2.

Inductive ColorCode := COLOR_RGB2BGR | COLOR_BGR2RGB.

(** First and third channel change places. *)
Fixpoint swap_rb (l : list byte) : list byte :=
  match l with
  | c0 :: c1 :: c2 :: rest => c2 :: c1 :: c0 :: swap_rb rest
  | _ => []
  end.

(** The same on four-channel pixels, whose alpha is dropped. *)
Fixpoint swap_rb4 (l : list byte) : list byte :=
  match l with
  | c0 :: c1 :: c2 :: _ :: rest => c2 :: c1 :: c0 :: swap_rb4 rest
  | _ => []
  end.

(** [cv2.cvtColor(a, code)] for the two codes of the script (one
    operation under two names). *)
Definition cvtColor (a : ndarray) (code : ColorCode) : Exn + ndarray :=
  match shape a with
  | [h; w; 3] => inr {| shape := [h; w; 3]; buf := swap_rb (buf a) |}
  | [h; w; 4] => inr {| shape := [h; w; 3]; buf := swap_rb4 (buf a) |}
  | _ => inl cv2_error
  end.

Fixpoint deinterleave (l : list byte) : list byte * list byte * list byte :=
  match l with
  | c0 :: c1 :: c2 :: rest =>
      let '(p0, p1, p2) := deinterleave rest in
      (c0 :: p0, c1 :: p1, c2 :: p2)
  | _ => ([], [], [])
  end.

(** [p0, p1, p2 = cv2.split(a)]: the three planes of a three-channel
    array; with another number of planes the unpacking fails. *)
Definition split3 (a : ndarray) : Exn + (ndarray * ndarray * ndarray) :=
  match shape a with
  | [h; w; 3] =>
      let '(p0, p1, p2) := deinterleave (buf a) in
      inr ({| shape := [h; w]; buf := p0 |},
           {| shape := [h; w]; buf := p1 |},
           {| shape := [h; w]; buf := p2 |})
  | [h; w; _] => inl ValueError
  | [h; w] => inl ValueError
  | _ => inl cv2_error
  end.

Fixpoint interleave (p0 p1 p2 : list byte) : list byte :=
  match p0, p1, p2 with
  | c0 :: q0, c1 :: q1, c2 :: q2 => c0 :: c1 :: c2 :: interleave q0 q1 q2
  | _, _, _ => []
  end.

Definition same_shape (a b : ndarray) : bool :=
  if list_eq_dec Nat.eq_dec (shape a) (shape b) then true else false.

(** [cv2.merge((p0, p1, p2))]: planes of one size become the channels of
    one array. *)
Definition merge (p0 p1 p2 : ndarray) : Exn + ndarray :=
  match shape p0 with
  | [h; w] =>
      if same_shape p0 p1 && same_shape p0 p2
      then inr {| shape := [h; w; 3];
                  buf := interleave (buf p0) (buf p1) (buf p2) |}
      else inl cv2_error
  | _ => inl cv2_error
  end.

End cv2.

(* ===================================================================== *)
(** * What the script takes from its libraries *)

(** Operations of Pillow, OpenCV and the Python runtime that the script
    calls and that are kept abstract.  A CLAHE object carries buffers of its
    own ([clahe_state]) which [apply] may read and rewrite. *)
Class Lib := {
  clahe_state : Type;
  clahe_fresh : clahe_state;
  clahe_apply :
    Float.float64 -> nat * nat -> clahe_state -> ndarray ->
    ndarray * clahe_state;
  (** [Image.open] on the uploaded bytes, pixel data read; [None] when the
      bytes are no picture Pillow can decode. *)
  image_open : list byte -> option Image;
  (** [image.convert(mode)], called with ["RGB"] only. *)
  convert : string -> Image -> Image;
  (** [image.resize(size)]. *)
  resize : nat * nat -> Image -> Image;
  (** The compressed pixel stream of a picture, cut into the pieces the
      PNG writer flushes. *)
  png_idat : Image -> list (list byte);
  (** [str(v)] of a value that is not a string. *)
  py_repr : json -> string;
  (** [float(s)] of a string; [None] when it raises [ValueError]. *)
  float_of_str : string -> option Float.float64
}.

(** What the proofs assume of them: conversion and resizing give well-formed
    pictures of the mode and size asked for, equalisation keeps the extent
    of a plane. *)
Class LibLaws (L : Lib) : Prop := {
  convert_RGB :
    forall i, mode (convert "RGB" i) = "RGB" /\ wf_image (convert "RGB" i);
  resize_spec :
    forall s i,
      mode (resize s i) = mode i /\ size (resize s i) = s /\
      wf_image (resize s i);
  clahe_apply_spec :
    forall c g st a,
      shape (fst (clahe_apply c g st a)) = shape a /\
      List.length (buf (fst (clahe_apply c g st a))) = List.length (buf a)
}.

(* ===================================================================== *)
(** * PNG files *)

Module Png.

Local Open Scope byte_scope.

Definition signature : list byte :=
  [Byte.x89; "P"; "N"; "G"; Byte.x0d; Byte.x0a; Byte.x1a; Byte.x0a].

Definition IHDR : list byte := ["I"; "H"; "D"; "R"].
Definition IDAT : list byte := ["I"; "D"; "A"; "T"].
Definition IEND : list byte := ["I"; "E"; "N"; "D"].

(** CRC-32 (polynomial [0xEDB88320], reflected), bit by bit. *)
Definition crc_shift (c : N) : N :=
  if N.odd c then N.lxor (N.shiftr c 1) 3988292384 else N.shiftr c 1.

Definition crc_update (c : N) (b : byte) : N :=
  N.iter 8 crc_shift (N.lxor c (Byte.to_N b)).

Definition crc32 (bs : list byte) : N :=
  N.lxor (fold_left crc_update bs 4294967295%N) 4294967295.

(** A chunk: length of the data, type, data, CRC of type and data. *)
Definition chunk (cid body : list byte) : list byte :=
  Bytes.be32 (N.of_nat (List.length body)) ++ cid ++ body
    ++ Bytes.be32 (crc32 (cid ++ body)).

(** Bit depth and colour type of the greyscale and truecolour 8-bit
    modes. *)
Definition rawmode (m : string) : option (byte * byte) :=
  if String.eqb m "L" then Some (Byte.x08, Byte.x00)
  else if String.eqb m "RGB" then Some (Byte.x08, Byte.x02)
  else if String.eqb m "LA" then Some (Byte.x08, Byte.x04)
  else if String.eqb m "RGBA" then Some (Byte.x08, Byte.x06)
  else None.

Definition mode_of (depth ctype : byte) : option string :=
  match depth, ctype with
  | Byte.x08, Byte.x00 => Some "L"%string
  | Byte.x08, Byte.x02 => Some "RGB"%string
  | Byte.x08, Byte.x04 => Some "LA"%string
  | Byte.x08, Byte.x06 => Some "RGBA"%string
  | _, _ => None
  end.

Definition header (im : Image) (depth ctype : byte) : list byte :=
  Bytes.be32 (N.of_nat (fst (size im))) ++ Bytes.be32 (N.of_nat (snd (size im)))
    ++ [depth; ctype; Byte.x00; Byte.x00; Byte.x00].

(** Modelled from the spec: the PNG encoding that section 4.3 names
    ("encode to PNG format in memory") and the imaging library provides;
    the encoder is not part of the repository.  The container is the one
    of the PNG standard: signature, [IHDR] with width, height, bit depth
    and colour type, the [IDAT] chunks, [IEND]; the compressed pixel
    stream is [png_idat].  Modes beyond the four of [rawmode] are left
    out. *)
Definition save {L : Lib} (im : Image) : Exn + list byte :=
  match rawmode (mode im) with
  | None => inl OSError
  | Some (depth, ctype) =>
      inr (signature ++ chunk IHDR (header im depth ctype)
             ++ flat_map (chunk IDAT) (png_idat im) ++ chunk IEND [])
  end.

Definition take (n : nat) (bs : list byte)
  : option (list byte * list byte) :=
  if Nat.ltb (List.length bs) n then None else Some (firstn n bs, skipn n bs).

(** Modelled from the spec: the decoding half of the round trip of
    section 8, which the repository never performs.  Opening a PNG reads
    the signature and the [IHDR] chunk, checks its CRC, and yields the mode
    and the size of the picture. *)
Definition open (bs : list byte) : option (string * (nat * nat)) :=
  match take 8 bs with
  | Some (sig, r0) =>
      if negb (Bytes.eqb_list sig signature) then None
      else
        match take 4 r0 with
        | Some (len, r1) =>
            match take 4 r1 with
            | Some (cid, r2) =>
                if negb ((Bytes.of_be32 len =? 13)%N && Bytes.eqb_list cid IHDR)
                then None
                else
                  match take 13 r2 with
                  | Some (hdr, r3) =>
                      match take 4 r3 with
                      | Some (crc, _) =>
                          if negb (crc32 (cid ++ hdr) =? Bytes.of_be32 crc)%N
                          then None
                          else
                            match mode_of (nth 8 hdr Byte.x00)
                                    (nth 9 hdr Byte.x00) with
                            | Some m =>
                                Some (m,
                                      (N.to_nat (Bytes.of_be32 (firstn 4 hdr)),
                                       N.to_nat
                                         (Bytes.of_be32 (firstn 4 (skipn 4 hdr)))))
                            | None => None
                            end
                      | None => None
                      end
                  | None => None
                  end
            | None => None
            end
        | None => None
        end
  | None => None
  end.

End Png.

(* ===================================================================== *)
(** * Effects: the page, the network, the heap *)

(** What a run does that can be seen from outside, call by call. *)
Inductive Event :=
| st_error (body : string)
| st_success (body : string)
| st_subheader (body : string)
| st_markdown (body : string)
| st_image (image : Image) (caption : string)
| st_spinner (text : string)
| requests_post (url : string) (payload : json).

(** A [requests.Response]: [response_json] is what [response.json()]
    does, raise (with the text of the exception) or return a value. *)
Record Response := mkResponse {
  status_code : Z;
  reason : string;
  response_url : string;
  response_json : string + json
}.

(** What [requests.post] does: raise (connection refused, timeout, ...)
    with the text of the exception, or return a response. *)
Inductive PostOutcome :=
| PostRaises (text : string)
| PostReturns (response : Response).

Definition Network := string -> json -> PostOutcome.

(** [response.raise_for_status()], as the HTTP library defines it: it
    raises [HTTPError] for the client errors 400..499 and for the server
    errors 500..599, with the text below, and for no other status.
    [Some text] when it raises. *)
Definition raise_for_status (r : Response) : option string :=
  if ((400 <=? status_code r) && (status_code r <? 500))%Z then
    Some (dec_of_Z (status_code r) ++ " Client Error: " ++ reason r
            ++ " for url: " ++ response_url r)%string
  else if ((500 <=? status_code r) && (status_code r <? 600))%Z then
    Some (dec_of_Z (status_code r) ++ " Server Error: " ++ reason r
            ++ " for url: " ++ response_url r)%string
  else None.

Definition is_post (e : Event) : bool :=
  match e with
  | requests_post _ _ => true
  | _ => false
  end.

(** The network calls of a trace. *)
Definition posts (t : list Event) : list Event := filter is_post t.

(* ===================================================================== *)
(** * The program *)

Section Program.

Context {L : Lib}.

(** A [cv2.CLAHE] object: its settings and its buffers. *)
Record CLAHE := mkCLAHE {
  clipLimit : Float.float64;
  tilesGridSize : nat * nat;
  buffers : clahe_state
}.

(** The objects alive in the interpreter; a reference is an index. *)
Definition Heap := list CLAHE.

Fixpoint update (h : Heap) (r : nat) (c : CLAHE) : Heap :=
  match h, r with
  | [], _ => []
  | _ :: h', O => c :: h'
  | x :: h', S r' => x :: update h' r' c
  end.

(** A run from a heap: its value or the exception that ended it, the
    heap it leaves, the events it produced. *)
Record Run (A : Type) := mkRun {
  result : Exn + A;
  heap_after : Heap;
  trace : list Event
}.

Arguments mkRun {A}.
Arguments result {A}.
Arguments heap_after {A}.
Arguments trace {A}.

Definition M (A : Type) : Type := Heap -> Run A.

Definition ret {A} (a : A) : M A := fun h => mkRun (inr a) h [].

Definition raise {A} (e : Exn) : M A := fun h => mkRun (inl e) h [].

Definition bind {A B} (m : M A) (k : A -> M B) : M B :=
  fun h =>
    let r := m h in
    match result r with
    | inl e => mkRun (inl e) (heap_after r) (trace r)
    | inr a =>
        let r' := k a (heap_after r) in
        mkRun (result r') (heap_after r') (trace r ++ trace r')
    end.

Definition emit (e : Event) : M unit := fun h => mkRun (inr tt) h [e].

Definition lift {A} (x : Exn + A) : M A :=
  match x with
  | inl e => raise e
  | inr a => ret a
  end.

Notation "x <- m ;; k" := (bind m (fun x => k))
  (at level 61, m at next level, right associativity).
Notation "' p <- m ;; k" := (bind m (fun x => let p := x in k))
  (at level 61, p pattern, m at next level, right associativity).
Notation "m ;; k" := (bind m (fun _ => k))
  (at level 61, right associativity).

(** [cv2.createCLAHE(clipLimit=c, tileGridSize=g)]: a new object. *)
Definition createCLAHE (c : Float.float64) (g : nat * nat) : M nat :=
  fun h => mkRun (inr (List.length h)) (h ++ [mkCLAHE c g clahe_fresh]) [].

(** [clahe.apply(src)] on the object at [r]: a single-channel array is
    equalised with the settings of the object, whose buffers change. *)
Definition CLAHE_apply (r : nat) (src : ndarray) : M ndarray :=
  fun h =>
    match nth_error h r with
    | None => mkRun (inl AttributeError) h []
    | Some c =>
        match shape src with
        | [_; _] =>
            let out :=
              clahe_apply (clipLimit c) (tilesGridSize c) (buffers c) src in
            mkRun (inr (fst out))
              (update h r (mkCLAHE (clipLimit c) (tilesGridSize c) (snd out)))
              []
        | _ => mkRun (inl cv2_error) h []
        end
    end.

(** The float [2.0]. *)
Definition two : Float.float64 := Float.Fin false 2 0.

(** [process_image], lines 68-77. *)
Definition process_image (image : Image) : M (Image * Image) :=
  let image := resize (224, 224) (convert "RGB" image) in
  let img_np := np_array image in
  img_np <- lift (cv2.cvtColor img_np cv2.COLOR_RGB2BGR) ;;
  '(b, g, r) <- lift (cv2.split3 img_np) ;;
  clahe <- createCLAHE two (8, 8) ;;
  b <- CLAHE_apply clahe b ;;
  g <- CLAHE_apply clahe g ;;
  r <- CLAHE_apply clahe r ;;
  processed_img <- lift (cv2.merge b g r) ;;
  processed_img <- lift (cv2.cvtColor processed_img cv2.COLOR_BGR2RGB) ;;
  processed <- lift (fromarray processed_img) ;;
  ret (image, processed).

Definition PREDICT_URL : string :=
  "https://backendapi-ctgr.onrender.com/predict".

(** The body of the [try] of [predict_image]: the text of the exception
    raised, or the value returned. *)
Definition request (net : Network) (payload : json) : string + json :=
  match net PREDICT_URL payload with
  | PostRaises text => inl text
  | PostReturns response =>
      match raise_for_status response with
      | Some text => inl text
      | None => response_json response
      end
  end.

(** [predict_image], lines 79-89.  [None] is [JNull]. *)
Definition predict_image (net : Network) (image : Image) : M json :=
  buffer <- lift (Png.save image) ;;
  let img_data := Bytes.to_str (Base64.b64encode buffer) in
  let payload := JObj [("file", JStr img_data)] in
  emit (requests_post PREDICT_URL payload) ;;
  match request net payload with
  | inr answer => ret answer
  | inl e =>
      emit (st_error ("Prediction API Error: " ++ e)) ;;
      ret JNull
  end.

(** The values read from the widgets when the script runs. *)
Record Form := mkForm {
  full_name : string;
  dob : option (Z * Z * Z);
  age : Z;
  email : string;
  gender : string;
  contact : string;
  diabetes : option string;
  (** The "Years with Diabetes" box is drawn, and [diabetes_years] bound,
      only when [diabetes] is ["Yes"]; line 143 reads it in that case
      only. *)
  diabetes_years : option Z;
  high_bp : option string;
  medications : string;
  (** The bytes of the uploaded file. *)
  uploaded_file : option (list byte);
  (** Whether "Analyze & Generate Report" was pressed. *)
  button : bool
}.

Definition is_none {A} (o : option A) : bool :=
  match o with
  | None => true
  | Some _ => false
  end.

Definition is_yes (o : option string) : bool :=
  match o with
  | Some s => String.eqb s "Yes"
  | None => false
  end.

(** [if c: missing.append(name)]. *)
Definition append_if (c : bool) (name : string) (missing : list string)
  : list string :=
  if c then missing ++ [name] else missing.

(** The validator, lines 135-145. *)
Definition validate (f : Form) : list string :=
  let missing := [] in
  let missing := append_if (String.eqb (full_name f) "") "Full Name" missing in
  let missing := append_if (String.eqb (email f) "") "Email" missing in
  let missing := append_if (is_none (dob f)) "Date of Birth" missing in
  let missing := append_if (age f =? 0)%Z "Age" missing in
  let missing :=
    append_if (String.eqb (gender f) "Select Gender") "Gender" missing in
  let missing := append_if (String.eqb (contact f) "") "Contact Number" missing in
  let missing := append_if (is_none (diabetes f)) "Diabetes Status" missing in
  let missing :=
    append_if (is_yes (diabetes f) && is_none (diabetes_years f))
      "Years with Diabetes" missing in
  let missing :=
    append_if (is_none (high_bp f)) "Blood Pressure Status" missing in
  let missing := append_if (is_none (uploaded_file f)) "Image Upload" missing in
  missing.

(** [str(v)], as an f-string inserts a value. *)
Definition py_str (v : json) : string :=
  match v with
  | JStr s => s
  | _ => py_repr v
  end.

(** [float(v)]. *)
Definition py_float (v : json) : Exn + Float.float64 :=
  match v with
  | JFloat x => inr x
  | JInt z =>
      match Float.of_int z with
      | Some x => inr x
      | None => inl OverflowError
      end
  | JBool b => inr (Float.of_bool b)
  | JStr s =>
      match float_of_str s with
      | Some x => inr x
      | None => inl ValueError
      end
  | _ => inl TypeError
  end.

(** The markup of one result, lines 161-163. *)
Definition result_line (label prob : string) : string :=
  "<div style='padding:1rem; background:#f8fafc; border-radius:8px; margin:0.5rem 0;'>"
    ++ "<b>" ++ label ++ "</b>: " ++ prob ++ "%" ++ "</div>".

(** The loop of lines 159-165 over the two zipped sequences. *)
Fixpoint render_pairs (labels probs : list json) : M unit :=
  match labels, probs with
  | label :: labels', prob :: probs' =>
      x <- lift (py_float prob) ;;
      emit (st_markdown (result_line (py_str label) (Float.format_2f x))) ;;
      render_pairs labels' probs'
  | _, _ => ret tt
  end.

(** The renderer, lines 155-169. *)
Definition render (predictions : json) : M unit :=
  if Py.truthy predictions then
    has_probabilities <- lift (Py.contains "probabilities" predictions) ;;
    has_labels <-
      (if has_probabilities : bool
       then lift (Py.contains "labels" predictions) else ret false) ;;
    if has_labels : bool then
      emit (st_success "Analysis Complete!") ;;
      emit (st_subheader "Results:") ;;
      labels <- lift (Py.getitem predictions "labels") ;;
      probs <- lift (Py.getitem predictions "probabilities") ;;
      labels <- lift (Py.iter labels) ;;
      probs <- lift (Py.iter probs) ;;
      render_pairs labels probs
    else
      has_error <- lift (Py.contains "error" predictions) ;;
      if has_error : bool then
        e <- lift (Py.getitem predictions "error") ;;
        emit (st_error ("Backend Error: " ++ py_str e))
      else emit (st_error "Unexpected response from backend.")
  else ret tt.

(** [Image.open(uploaded_file)]. *)
Definition Image_open (file : option (list byte)) : M Image :=
  match file with
  | None => raise AttributeError
  | Some bytes =>
      match image_open bytes with
      | Some image => ret image
      | None => raise UnidentifiedImageError
      end
  end.

(** The handler of the submit button, lines 135-169. *)
Definition submit (net : Network) (f : Form) : M unit :=
  let missing := validate f in
  match missing with
  | _ :: _ =>
      emit (st_error ("Please complete the following required fields: "
                        ++ join ", " missing))
  | [] =>
      emit (st_spinner "Processing image and generating prediction...") ;;
      image <- Image_open (uploaded_file f) ;;
      '(_, processed_image) <- process_image image ;;
      emit (st_image processed_image "Processed Image") ;;
      predictions <- predict_image net processed_image ;;
      render predictions
  end.

(** [main], lines 91-169: the calls above line 134 draw the page and read
    the widgets into the form; they leave nothing in the trace. *)
Definition main (net : Network) (f : Form) : M unit :=
  if button f then submit net f else ret tt.

End Program.

Arguments mkRun {L A}.
Arguments result {L A}.
Arguments heap_after {L A}.
Arguments trace {L A}.

(* ===================================================================== *)
(** * The specification's vocabulary *)

Module Spec.

(** The fields of the form that section 4.1 makes required. *)
Inductive Field :=
| FullName | Email | DateOfBirth | Age | Gender | ContactNumber
| DiabetesStatus | YearsWithDiabetes | BloodPressureStatus | ImageUpload.

Definition all_fields : list Field :=
  [FullName; Email; DateOfBirth; Age; Gender; ContactNumber;
   DiabetesStatus; YearsWithDiabetes; BloodPressureStatus; ImageUpload].

Definition field_name (x : Field) : string :=
  match x with
  | FullName => "Full Name"
  | Email => "Email"
  | DateOfBirth => "Date of Birth"
  | Age => "Age"
  | Gender => "Gender"
  | ContactNumber => "Contact Number"
  | DiabetesStatus => "Diabetes Status"
  | YearsWithDiabetes => "Years with Diabetes"
  | BloodPressureStatus => "Blood Pressure Status"
  | ImageUpload => "Image Upload"
  end.

(** "Diabetes-years is required if and only if the diabetes radio equals
    Yes"; every other field always is. *)
Definition required (f : Form) (x : Field) : bool :=
  match x with
  | YearsWithDiabetes =>
      match diabetes f with
      | Some answer => String.eqb answer "Yes"
      | None => false
      end
  | _ => true
  end.

(** "A field is missing if: text fields are empty, date field unset,
    numeric age field unset/zero, gender equals the placeholder, either
    radio field is unset, diabetes-years is unset, or no image was
    uploaded." *)
Definition unset (f : Form) (x : Field) : bool :=
  match x with
  | FullName => String.eqb (full_name f) ""
  | Email => String.eqb (email f) ""
  | DateOfBirth => match dob f with None => true | Some _ => false end
  | Age => (age f =? 0)%Z
  | Gender => String.eqb (gender f) "Select Gender"
  | ContactNumber => String.eqb (contact f) ""
  | DiabetesStatus => match diabetes f with None => true | Some _ => false end
  | YearsWithDiabetes =>
      match diabetes_years f with None => true | Some _ => false end
  | BloodPressureStatus =>
      match high_bp f with None => true | Some _ => false end
  | ImageUpload =>
      match uploaded_file f with None => true | Some _ => false end
  end.

Definition missing_fields (f : Form) : list Field :=
  filter (fun x => required f x && unset f x) all_fields.

(** The three cases of section 4.4, in their priority order. *)
Inductive Case := Results | BackendError | Unexpected.

Definition has (k : string) (members : list (string * json)) : bool :=
  match Py.lookup k members with
  | Some _ => true
  | None => false
  end.

Definition case_of (members : list (string * json)) : Case :=
  if has "probabilities" members && has "labels" members then Results
  else if has "error" members then BackendError
  else Unexpected.

(** What a browser shows of a piece of markup: the text outside the
    tags. *)
Fixpoint strip_tags (in_tag : bool) (s : string) : string :=
  match s with
  | EmptyString => EmptyString
  | String c s' =>
      if in_tag then strip_tags (negb (Ascii.eqb c ">")) s'
      else if Ascii.eqb c "<" then strip_tags true s'
      else String c (strip_tags false s')
  end.

(** Text that holds no markup of its own. *)
Definition tag_free (s : string) : Prop :=
  forallb (fun c => negb (Ascii.eqb c "<")) (list_ascii_of_string s) = true.

(** The text of the [st.markdown] blocks of a trace, top to bottom. *)
Definition shown_lines (t : list Event) : list string :=
  flat_map (fun e => match e with
                     | st_markdown body => [strip_tags false body]
                     | _ => []
                     end) t.

Definition is_error (e : Event) : bool :=
  match e with
  | st_error _ => true
  | _ => false
  end.

Definition is_markdown (e : Event) : bool :=
  match e with
  | st_markdown _ => true
  | _ => false
  end.

(** The block that shows one label with one probability. *)
Definition shows {L : Lib} (label : json) (x : Float.float64) : Event :=
  st_markdown (result_line (py_str label) (Float.format_2f x)).

(** The body section 4.3 gives the request: an object whose one key,
    [file], holds the base64 text of the PNG bytes. *)
Definition payload_of (png : list byte) : json :=
  JObj [("file", JStr (Bytes.to_str (Base64.b64encode png)))].

(** A computation that never reaches the network. *)
Definition offline {L : Lib} {A} (m : M A) : Prop :=
  forall h, posts (trace (m h)) = [].

(** Steps 1 and 2 of section 4.2: the source in RGB, stretched to 224 by
    224. *)
Definition resized {L : Lib} (image : Image) : Image :=
  resize (224, 224) (convert "RGB" image).

(** One plane of a picture, as an array of its height and width. *)
Definition plane (src : Image) (p : list byte) : ndarray :=
  {| shape := [snd (size src); fst (size src)]; buf := p |}.

(** What section 4.2 asks of the equalised picture, said on the RGB
    source itself: each of its planes goes through one equaliser with clip
    limit 2.0 and tiles 8x8, alone - blue first, then green, then red, the
    order of a BGR array - and comes back to the place it had. *)
Definition equalised_planes {L : Lib} (src : Image)
  : (ndarray * clahe_state) * (ndarray * clahe_state)
    * (ndarray * clahe_state) :=
  let '(r, g, b) := cv2.deinterleave (data src) in
  let eb := clahe_apply two (8, 8) clahe_fresh (plane src b) in
  let eg := clahe_apply two (8, 8) (snd eb) (plane src g) in
  let er := clahe_apply two (8, 8) (snd eg) (plane src r) in
  (er, eg, eb).

Definition equalised {L : Lib} (src : Image) : Image :=
  let '(er, eg, eb) := equalised_planes src in
  {| mode := "RGB"; size := size src;
     data := cv2.interleave (buf (fst er)) (buf (fst eg)) (buf (fst eb)) |}.

End Spec.

(* ===================================================================== *)
(** * A small instance of the library interface *)

(** Pictures are PNG files whose header parses, decoded to a blank raster;
    conversion and resizing repaint with the first byte of the source;
    equalisation adds the number of planes the object has already treated,
    so that its answer does depend on its buffers. *)
Module Stub.

Definition blank (m : string) (s : nat * nat) (b : byte) : Image :=
  {| mode := m; size := s; data := repeat b (fst s * snd s * bands m) |}.

Definition first_byte (i : Image) : byte := hd Byte.x00 (data i).

Definition apply (c : Float.float64) (g : nat * nat) (n : nat) (a : ndarray)
  : ndarray * nat :=
  ({| shape := shape a;
      buf := map (fun b => Bytes.of_N_wrap (Byte.to_N b + N.of_nat n)) (buf a) |},
   S n).

Definition decode (bs : list byte) : option Image :=
  match Png.open bs with
  | Some (m, s) => Some (blank m s Byte.x00)
  | None => None
  end.

Definition lib : Lib := {|
  clahe_state := nat;
  clahe_fresh := 0;
  clahe_apply := apply;
  image_open := decode;
  convert := fun m i => blank m (size i) (first_byte i);
  resize := fun s i => blank (mode i) s (first_byte i);
  png_idat := fun i => [data i];
  py_repr := fun _ => "?";
  float_of_str := fun _ => None
|}.

(** A complete form whose upload is a 1x1 grey PNG header. *)
Definition tiny_png : list byte :=
  Png.signature
    ++ Png.chunk Png.IHDR
         (Bytes.be32 1 ++ Bytes.be32 1
            ++ [Byte.x08; Byte.x00; Byte.x00; Byte.x00; Byte.x00])
    ++ Png.chunk Png.IDAT [] ++ Png.chunk Png.IEND [].

Definition form (upload : option (list byte)) : Form :=
  {| full_name := "Ada Lovelace"; dob := Some (1815, 12, 10)%Z; age := 36;
     email := "ada@example.org"; gender := "Female"; contact := "555-0100";
     diabetes := Some "No"; diabetes_years := None; high_bp := Some "No";
     medications := ""; uploaded_file := upload; button := true |}.

(** The double nearest to 72.345 and the one nearest to 27.655. *)
Definition d72_345 : Float.float64 := Float.Fin false 5090826797533102 (-46).
Definition d27_655 : Float.float64 := Float.Fin false 7784190480933192 (-48).

(** The answer of the last example but one of section 8. *)
Definition grades : json :=
  JObj [("labels", JArr [JStr "Grade 1"; JStr "Grade 2"]);
        ("probabilities", JArr [JFloat d72_345; JFloat d27_655])].

Definition answers (status : Z) (body : json) : Network :=
  fun url _ =>
    PostReturns {| status_code := status; reason := "";
                   response_url := url; response_json := inr body |}.

End Stub.


(* ===================================================================== *)
(** * The widgets of the form, lines 105-131 *)

Module Widgets.

(** The options of the gender box, line 115. *)
Definition GENDERS : list string := ["Select Gender"; "Male"; "Female"; "Other"].

(** What a radio with the options "Yes" and "No" and [index=None] hands
    back, lines 122 and 126. *)
Definition is_answer (o : option string) : bool :=
  match o with
  | None => true
  | Some s => String.eqb s "Yes" || String.eqb s "No"
  end.

(** The forms the widgets can produce: a date box always holds a date, the
    age box a whole number from 1 to 120, the gender box one of its
    options, a radio one of its options or nothing, and the box of the
    years, drawn when the diabetes radio says "Yes", a whole number from
    0. *)
Definition drawn (f : Form) : bool :=
  negb (is_none (dob f))
  && ((1 <=? age f) && (age f <=? 120))%Z
  && existsb (String.eqb (gender f)) GENDERS
  && is_answer (diabetes f)
  && (if is_yes (diabetes f)
      then match diabetes_years f with
           | Some y => (0 <=? y)%Z
           | None => false
           end
      else true)
  && is_answer (high_bp f).

(** Lines 123-124: the name [diabetes_years] is bound only under
    [diabetes == "Yes"]; [None] is the unbound name. *)
Definition years_variable (f : Form) : option (option Z) :=
  if is_yes (diabetes f) then Some (diabetes_years f) else None.

(** Line 143, [diabetes == "Yes" and diabetes_years is None], on the
    variable itself: [and] reads its right operand only when the left one
    holds; [None] is the [NameError] of reading an unbound name. *)
Definition years_test (answer : option string) (variable : option (option Z))
  : option bool :=
  if is_yes answer then
    match variable with
    | Some value => Some (is_none value)
    | None => None
    end
  else Some false.

End Widgets.

(* ===================================================================== *)
(** * Shapes of traces *)

Module Page.

(** A computation that leaves no event. *)
Definition silent {L : Lib} {A} (m : M A) : Prop :=
  forall h, trace (m h) = [].

Definition SPINNER : Event :=
  st_spinner "Processing image and generating prediction...".

Definition SUCCESS : Event := st_success "Analysis Complete!".

Definition HEADING : Event := st_subheader "Results:".

(** What the renderer can leave on the page: nothing, one error message,
    or the success notice, the heading and result blocks. *)
Definition rendered (t : list Event) : Prop :=
  t = [] \/
  (exists message, t = [st_error message]) \/
  (exists blocks,
      t = SUCCESS :: HEADING :: blocks /\
      forallb Spec.is_markdown blocks = true).

(** The values [in] refuses. *)
Definition is_scalar (v : json) : bool :=
  match v with
  | JNull | JBool _ | JInt _ | JFloat _ => true
  | _ => false
  end.

Definition is_dict (v : json) : bool :=
  match v with
  | JObj _ => true
  | _ => false
  end.

(** The values that are false for [if predictions:]. *)
Definition falsy (v : json) : Prop :=
  v = JNull \/ v = JBool false \/ v = JInt 0 \/
  (exists neg e, v = JFloat (Float.Fin neg 0 e)) \/
  v = JStr "" \/ v = JArr [] \/ v = JObj [].

End Page.

(* ===================================================================== *)
(** * More instances and data for the examples *)

Module Cases.

(** The stub library with an equaliser that hands back the plane it is
    given. *)
Definition plain : Lib := {|
  clahe_state := unit;
  clahe_fresh := tt;
  clahe_apply := fun _ _ st a => (a, st);
  image_open := Stub.decode;
  convert := fun m i => Stub.blank m (size i) (Stub.first_byte i);
  resize := fun s i => Stub.blank (mode i) s (Stub.first_byte i);
  png_idat := fun i => [data i];
  py_repr := fun _ => "?";
  float_of_str := fun _ => None
|}.

(** Another patient with the same picture. *)
Definition other_form (upload : option (list byte)) : Form :=
  {| full_name := "Grace Hopper"; dob := Some (1906, 12, 9)%Z; age := 85;
     email := "grace@example.org"; gender := "Other"; contact := "555-0199";
     diabetes := Some "Yes"; diabetes_years := Some 12%Z;
     high_bp := Some "Yes"; medications := "metformin";
     uploaded_file := upload; button := true |}.

(** A network that is down. *)
Definition down : Network := fun _ _ => PostRaises "connection refused".

(** Three labels for two probabilities. *)
Definition uneven : json :=
  JObj [("labels", JArr [JStr "Grade 1"; JStr "Grade 2"; JStr "Grade 3"]);
        ("probabilities", JArr [JFloat Stub.d72_345; JFloat Stub.d27_655])].

(** Three labels for two probabilities, the first of them [null]. *)
Definition uneven_null : json :=
  JObj [("labels", JArr [JStr "Grade 1"; JStr "Grade 2"; JStr "Grade 3"]);
        ("probabilities", JArr [JNull; JInt 1])].

(** The euro sign, U+20AC, in its three bytes. *)
Definition euro : string :=
  String "226" (String "130" (String "172" EmptyString)).

End Cases.

(* ===================================================================== *)
(** * Proofs: bytes and base64 *)

Ltac divmod := zify; Z.to_euclidean_division_equations; lia.

Lemma of_N_wrap_small (n : N) (b : byte) :
  n = Byte.to_N b -> Bytes.of_N_wrap n = b.
Proof.
  intros ->. unfold Bytes.of_N_wrap.
  pose proof (Byte.to_N_bounded b) as Hb.
  rewrite N.mod_small by lia.
  now rewrite Byte.of_to_N.
Qed.

Lemma to_N_of_N_wrap (n : N) : Byte.to_N (Bytes.of_N_wrap n) = (n mod 256)%N.
Proof.
  unfold Bytes.of_N_wrap.
  destruct (Byte.of_N (n mod 256)) as [b|] eqn:E.
  - now apply Byte.to_of_N.
  - apply Byte.of_N_None_iff in E.
    pose proof (N.mod_upper_bound n 256). lia.
Qed.

Lemma b64_index_char (n : N) :
  (n < 64)%N -> Base64.index (Base64.char n) = Some n.
Proof.
  intros H.
  assert (E : forall k, (k < 64)%nat ->
            Base64.index (Base64.char (N.of_nat k)) = Some (N.of_nat k)).
  { intros k Hk. do 64 (destruct k as [|k]; [reflexivity|]). lia. }
  rewrite <- (N2Nat.id n). apply E. lia.
Qed.

Lemma b64_char_not_pad (n : N) :
  (n < 64)%N -> Byte.eqb (Base64.char n) Base64.pad = false.
Proof.
  intros H.
  assert (E : forall k, (k < 64)%nat ->
            Byte.eqb (Base64.char (N.of_nat k)) Base64.pad = false).
  { intros k Hk. do 64 (destruct k as [|k]; [reflexivity|]). lia. }
  rewrite <- (N2Nat.id n). apply E. lia.
Qed.

Lemma b64_char_ascii (n : N) : Bytes.is_ascii (Base64.char n) = true.
Proof.
  assert (E : forall k, Bytes.is_ascii (Base64.char (N.of_nat k)) = true).
  { intros k. do 64 (destruct k as [|k]; [reflexivity|]).
    unfold Base64.char. rewrite Nat2N.id.
    rewrite nth_overflow; [reflexivity|]. cbn. lia. }
  rewrite <- (N2Nat.id n). apply E.
Qed.

(** Lists taken three elements at a time. *)
Lemma list_ind3 {A} (P : list A -> Prop) :
  P [] -> (forall a, P [a]) -> (forall a b, P [a; b]) ->
  (forall a b c l, P l -> P (a :: b :: c :: l)) ->
  forall l, P l.
Proof.
  intros H0 H1 H2 H3 l.
  enough (P l /\ (forall a, P (a :: l)) /\ (forall a b, P (a :: b :: l)))
    by tauto.
  induction l as [|x l (IH0 & IH1 & IH2)]; repeat split; auto.
Qed.

Lemma sextet_bounds (b0 b1 b2 : byte) :
  let n0 := Byte.to_N b0 in
  let n1 := Byte.to_N b1 in
  let n2 := Byte.to_N b2 in
  (n0 / 4 < 64 /\ (n0 mod 4) * 16 + n1 / 16 < 64 /\
   (n1 mod 16) * 4 + n2 / 64 < 64 /\ n2 mod 64 < 64 /\
   (n0 mod 4) * 16 < 64 /\ (n1 mod 16) * 4 < 64)%N.
Proof.
  pose proof (Byte.to_N_bounded b0). pose proof (Byte.to_N_bounded b1).
  pose proof (Byte.to_N_bounded b2). cbv zeta.
  repeat split; divmod.
Qed.

(** A byte comes back from the sextets it was cut into. *)
Lemma byte_back (b : byte) (n : N) :
  n = Byte.to_N b -> Bytes.of_N_wrap n = b.
Proof. apply of_N_wrap_small. Qed.

(** Decoding undoes encoding. *)
Lemma b64decode_b64encode (bs : list byte) :
  Base64.b64decode (Base64.b64encode bs) = Some bs.
Proof.
  induction bs as [|b0|b0 b1|b0 b1 b2 rest IH] using list_ind3.
  - reflexivity.
  - destruct (sextet_bounds b0 b0 b0) as (H0 & _ & _ & _ & H4 & _).
    pose proof (Byte.to_N_bounded b0).
    cbn [Base64.b64encode Base64.b64decode].
    rewrite !b64_index_char by assumption.
    rewrite !(Byte.byte_dec_lb (eq_refl Base64.pad)).
    rewrite (byte_back b0) by divmod. reflexivity.
  - destruct (sextet_bounds b0 b1 b1) as (H0 & H1 & _ & _ & _ & H5).
    pose proof (Byte.to_N_bounded b0). pose proof (Byte.to_N_bounded b1).
    cbn [Base64.b64encode Base64.b64decode].
    rewrite !b64_index_char by assumption.
    rewrite (Byte.byte_dec_lb (eq_refl Base64.pad)).
    rewrite b64_char_not_pad by assumption.
    rewrite (byte_back b0) by divmod.
    rewrite (byte_back b1) by divmod. reflexivity.
  - destruct (sextet_bounds b0 b1 b2) as (H0 & H1 & H2 & H3 & _ & _).
    pose proof (Byte.to_N_bounded b0). pose proof (Byte.to_N_bounded b1).
    pose proof (Byte.to_N_bounded b2).
    cbn [Base64.b64encode Base64.b64decode].
    rewrite !b64_index_char by assumption.
    rewrite b64_char_not_pad by assumption.
    fold Base64.b64encode. fold Base64.b64decode. rewrite IH.
    rewrite (byte_back b0) by divmod.
    rewrite (byte_back b1) by divmod.
    rewrite (byte_back b2) by divmod. reflexivity.
Qed.

Lemma b64encode_ascii (bs : list byte) :
  forallb Bytes.is_ascii (Base64.b64encode bs) = true.
Proof.
  induction bs as [|b0|b0 b1|b0 b1 b2 rest IH] using list_ind3;
    cbn [Base64.b64encode forallb]; rewrite ?b64_char_ascii, ?IH; reflexivity.
Qed.

Lemma of_str_to_str (bs : list byte) : Bytes.of_str (Bytes.to_str bs) = bs.
Proof. apply list_byte_of_string_of_list_byte. Qed.

(* ===================================================================== *)
(** * Proofs: the PNG container *)

Lemma of_be32_be32 (n : N) :
  (n < 4294967296)%N -> Bytes.of_be32 (Bytes.be32 n) = n.
Proof.
  intros H. unfold Bytes.of_be32, Bytes.be32. cbn [fold_left].
  rewrite !to_N_of_N_wrap. divmod.
Qed.

Lemma lxor_lt_pow2 (a b n : N) :
  (a < 2 ^ n)%N -> (b < 2 ^ n)%N -> (N.lxor a b < 2 ^ n)%N.
Proof.
  intros Ha Hb.
  destruct (N.eq_dec (N.lxor a b) 0) as [E|E].
  - rewrite E. apply N.neq_0_lt_0, N.pow_nonzero. discriminate.
  - apply N.log2_lt_pow2; [lia|].
    eapply N.le_lt_trans; [apply N.log2_lxor|].
    destruct (N.eq_dec a 0) as [->|Ha0], (N.eq_dec b 0) as [->|Hb0].
    + now destruct E.
    + rewrite N.max_r by apply N.le_0_l. apply N.log2_lt_pow2; lia.
    + rewrite N.max_l by apply N.le_0_l. apply N.log2_lt_pow2; lia.
    + apply N.max_lub_lt; apply N.log2_lt_pow2; lia.
Qed.

Lemma crc_shift_bound (c : N) :
  (c < 2 ^ 32)%N -> (Png.crc_shift c < 2 ^ 32)%N.
Proof.
  intros H. unfold Png.crc_shift.
  assert (N.shiftr c 1 < 2 ^ 32)%N.
  { rewrite N.shiftr_div_pow2. change (2 ^ 32)%N with 4294967296%N in *.
    change (2 ^ 1)%N with 2%N. divmod. }
  destruct (N.odd c); [apply lxor_lt_pow2|]; auto.
  reflexivity.
Qed.

Lemma crc_update_bound (c : N) (b : byte) :
  (c < 2 ^ 32)%N -> (Png.crc_update c b < 2 ^ 32)%N.
Proof.
  intros H. unfold Png.crc_update.
  assert (H0 : (N.lxor c (Byte.to_N b) < 2 ^ 32)%N).
  { apply lxor_lt_pow2; auto. pose proof (Byte.to_N_bounded b).
    change (2 ^ 32)%N with 4294967296%N. lia. }
  cbn [N.iter Pos.iter]. auto 10 using crc_shift_bound.
Qed.

Lemma crc32_bound (bs : list byte) : (Png.crc32 bs < 4294967296)%N.
Proof.
  change 4294967296%N with (2 ^ 32)%N. unfold Png.crc32.
  apply lxor_lt_pow2; [|reflexivity].
  assert (G : forall c, (c < 2 ^ 32)%N ->
                   (fold_left Png.crc_update bs c < 2 ^ 32)%N).
  { induction bs as [|b bs IH]; intros c Hc; cbn [fold_left]; auto.
    apply IH, crc_update_bound, Hc. }
  apply G. reflexivity.
Qed.

Lemma take_app (n : nat) (a b : list byte) :
  List.length a = n -> Png.take n (a ++ b) = Some (a, b).
Proof.
  intros <-. unfold Png.take.
  rewrite length_app.
  replace (Nat.ltb _ _) with false
    by (symmetry; apply Nat.ltb_ge; lia).
  rewrite firstn_app, Nat.sub_diag, firstn_all, skipn_app, Nat.sub_diag,
    skipn_all. cbn. now rewrite app_nil_r.
Qed.

Lemma eqb_list_refl (a : list byte) : Bytes.eqb_list a a = true.
Proof.
  unfold Bytes.eqb_list. destruct (list_eq_dec Byte.byte_eq_dec a a); congruence.
Qed.

(** Opening what was saved gives back mode and size: RGB pictures. *)
Lemma open_save_RGB {L : Lib} (im : Image) :
  mode im = "RGB" ->
  (N.of_nat (fst (size im)) < 4294967296)%N ->
  (N.of_nat (snd (size im)) < 4294967296)%N ->
  exists png, Png.save im = inr png /\ Png.open png = Some ("RGB", size im).
Proof.
  intros Hm Hw Hh. unfold Png.save. rewrite Hm. cbn [Png.rawmode String.eqb Ascii.eqb Bool.eqb].
  eexists. split; [reflexivity|].
  unfold Png.open, Png.chunk at 1.
  rewrite take_app by reflexivity.
  rewrite eqb_list_refl. cbn [negb].
  rewrite <- !app_assoc.
  rewrite take_app by reflexivity.
  rewrite take_app by reflexivity.
  assert (Hlen : List.length (Png.header im Byte.x08 Byte.x02) = 13%nat)
    by reflexivity.
  rewrite Hlen. rewrite eqb_list_refl.
  replace ((Bytes.of_be32 (Bytes.be32 (N.of_nat 13)) =? 13)%N) with true
    by reflexivity.
  cbn [andb negb].
  rewrite take_app by exact Hlen.
  rewrite take_app by reflexivity.
  rewrite of_be32_be32 by apply crc32_bound.
  rewrite N.eqb_refl. cbn [negb].
  unfold Png.header.
  change (nth 8 _ _) with Byte.x08. change (nth 9 _ _) with Byte.x02.
  cbn [Png.mode_of].
  change (firstn 4 (Bytes.be32 ?a ++ _)) with (Bytes.be32 a).
  change (firstn 4 (skipn 4 (Bytes.be32 ?a ++ Bytes.be32 ?b ++ _)))
    with (Bytes.be32 b).
  rewrite !of_be32_be32 by assumption.
  rewrite !Nat2N.id. now destruct (size im).
Qed.

(* ===================================================================== *)
(** * Proofs: channels and planes *)

Lemma deinterleave_swap_rb (l : list byte) :
  cv2.deinterleave (cv2.swap_rb l) =
  let '(p0, p1, p2) := cv2.deinterleave l in (p2, p1, p0).
Proof.
  induction l as [| | |c0 c1 c2 l IH] using list_ind3; try reflexivity.
  cbn [cv2.swap_rb cv2.deinterleave]. rewrite IH.
  now destruct (cv2.deinterleave l) as [[p0 p1] p2].
Qed.

Lemma swap_rb_interleave (p0 p1 p2 : list byte) :
  cv2.swap_rb (cv2.interleave p0 p1 p2) = cv2.interleave p2 p1 p0.
Proof.
  revert p1 p2.
  induction p0 as [|c0 p0 IH]; intros [|c1 p1] [|c2 p2]; try reflexivity.
  cbn [cv2.interleave cv2.swap_rb]. now rewrite IH.
Qed.

Lemma deinterleave_interleave (p0 p1 p2 : list byte) :
  List.length p1 = List.length p0 -> List.length p2 = List.length p0 ->
  cv2.deinterleave (cv2.interleave p0 p1 p2) = (p0, p1, p2).
Proof.
  revert p1 p2.
  induction p0 as [|c0 p0 IH]; intros [|c1 p1] [|c2 p2] H1 H2;
    try discriminate; try reflexivity.
  cbn [cv2.interleave cv2.deinterleave]. rewrite IH; auto.
Qed.

Lemma length_interleave (p0 p1 p2 : list byte) :
  List.length p1 = List.length p0 -> List.length p2 = List.length p0 ->
  List.length (cv2.interleave p0 p1 p2) = 3 * List.length p0.
Proof.
  revert p1 p2.
  induction p0 as [|c0 p0 IH]; intros [|c1 p1] [|c2 p2] H1 H2;
    try discriminate; try reflexivity.
  cbn [cv2.interleave List.length]. rewrite IH; auto. lia.
Qed.

(** The planes of a raster of [3 * n] bytes have [n] bytes each. *)
Lemma length_deinterleave (l : list byte) (n : nat) :
  List.length l = 3 * n ->
  let '(p0, p1, p2) := cv2.deinterleave l in
  List.length p0 = n /\ List.length p1 = n /\ List.length p2 = n.
Proof.
  revert n.
  induction l as [| | |c0 c1 c2 l IH] using list_ind3; intros n H;
    cbn [List.length] in H.
  - cbn. lia.
  - lia.
  - lia.
  - destruct n as [|n]; [lia|].
    cbn [cv2.deinterleave]. specialize (IH n ltac:(lia)).
    destruct (cv2.deinterleave l) as [[p0 p1] p2]. cbn [List.length]. lia.
Qed.

(* ===================================================================== *)
(** * Proofs: the heap of CLAHE objects *)

Section HeapFacts.

Context {L : Lib}.

Lemma run_eta {A} (r : Run A) :
  mkRun (result r) (heap_after r) (trace r) = r.
Proof. now destruct r. Qed.

(** A step that ends well and draws nothing hands its value and heap to
    what follows. *)
Lemma bind_pure {A B} (m : M A) (k : A -> M B) (h h' : Heap) (a : A) :
  m h = mkRun (inr a) h' [] -> bind m k h = k a h'.
Proof.
  intros E. unfold bind. rewrite E. cbn [result heap_after trace app].
  apply run_eta.
Qed.

Lemma nth_error_fresh (h : Heap) (c : CLAHE) :
  nth_error (h ++ [c]) (List.length h) = Some c.
Proof.
  rewrite nth_error_app2 by lia. now rewrite Nat.sub_diag.
Qed.

Lemma update_fresh (h : Heap) (c c' : CLAHE) :
  update (h ++ [c]) (List.length h) c' = h ++ [c'].
Proof.
  induction h as [|x h IH]; cbn; [reflexivity|]. now rewrite IH.
Qed.

(** [clahe.apply] on the object just made, or made and used. *)
Lemma CLAHE_apply_fresh (h : Heap) (c : Float.float64) (g : nat * nat)
      (st : clahe_state) (src : ndarray) (rows cols : nat) :
  shape src = [rows; cols] ->
  CLAHE_apply (List.length h) src (h ++ [mkCLAHE c g st]) =
  mkRun (inr (fst (clahe_apply c g st src)))
        (h ++ [mkCLAHE c g (snd (clahe_apply c g st src))]) [].
Proof.
  intros Hs. unfold CLAHE_apply.
  rewrite nth_error_fresh, Hs. cbn [clipLimit tilesGridSize buffers].
  now rewrite update_fresh.
Qed.

End HeapFacts.

(* ===================================================================== *)
(** * Proofs: [process_image] *)

Section ProcessImage.

Context {L : Lib} {Laws : LibLaws L}.

Lemma resized_mode image : mode (Spec.resized image) = "RGB".
Proof.
  unfold Spec.resized.
  destruct (resize_spec (224, 224) (convert "RGB" image)) as (-> & _ & _).
  apply convert_RGB.
Qed.

Lemma resized_size image : size (Spec.resized image) = (224, 224).
Proof. unfold Spec.resized. apply resize_spec. Qed.

Lemma resized_wf image : wf_image (Spec.resized image).
Proof. unfold Spec.resized. apply resize_spec. Qed.

Lemma resized_length image :
  List.length (data (Spec.resized image)) = 3 * (224 * 224).
Proof.
  pose proof (resized_wf image) as H. unfold wf_image in H.
  rewrite resized_size, resized_mode in H.
  change (bands "RGB") with 3 in H. cbn [fst snd] in H.
  now rewrite Nat.mul_comm in H.
Qed.

(** The run of [process_image]: no exception, no event, one more object
    on the heap, and the picture that [Spec.equalised] describes. *)
Lemma process_image_run (image : Image) (h : Heap) :
  process_image image h =
  mkRun (inr (Spec.resized image, Spec.equalised (Spec.resized image)))
        (h ++ [mkCLAHE two (8, 8)
                 (snd (fst (fst (Spec.equalised_planes (Spec.resized image)))))])
        [].
Proof.
  unfold process_image. fold (Spec.resized image).
  pose proof (resized_mode image) as Hm.
  pose proof (resized_size image) as Hs.
  pose proof (resized_length image) as Hl.
  unfold Spec.equalised, Spec.equalised_planes, Spec.plane.
  destruct (Spec.resized image) as [m s d]. cbn [mode size data] in *. subst m s.
  pose proof (length_deinterleave d _ Hl) as Hp.
  cbv zeta.
  change (np_array {| mode := "RGB"; size := (224, 224); data := d |})
    with {| shape := [224; 224; 3]; buf := d |}.
  cbn [size fst snd].
  destruct (cv2.deinterleave d) as [[pr pg] pb] eqn:Ed.
  destruct Hp as (Hr & Hg & Hb).
  erewrite bind_pure by reflexivity.
  erewrite bind_pure
    by (unfold cv2.split3; cbn [shape buf]; rewrite deinterleave_swap_rb, Ed;
        reflexivity).
  cbv beta iota.
  erewrite bind_pure by reflexivity.
  erewrite bind_pure by (eapply CLAHE_apply_fresh; reflexivity).
  erewrite bind_pure by (eapply CLAHE_apply_fresh; reflexivity).
  erewrite bind_pure by (eapply CLAHE_apply_fresh; reflexivity).
  set (eb := clahe_apply two (8, 8) clahe_fresh
               {| shape := [224; 224]; buf := pb |}).
  set (eg := clahe_apply two (8, 8) (snd eb)
               {| shape := [224; 224]; buf := pg |}).
  set (er := clahe_apply two (8, 8) (snd eg)
               {| shape := [224; 224]; buf := pr |}).
  assert (Sb : shape (fst eb) = [224; 224]) by apply clahe_apply_spec.
  assert (Sg : shape (fst eg) = [224; 224]) by apply clahe_apply_spec.
  assert (Sr : shape (fst er) = [224; 224]) by apply clahe_apply_spec.
  erewrite bind_pure
    by (unfold cv2.merge, cv2.same_shape; rewrite Sb, Sg, Sr;
        destruct (list_eq_dec Nat.eq_dec [224; 224] [224; 224]);
        [reflexivity | congruence]).
  erewrite bind_pure by reflexivity.
  erewrite bind_pure by reflexivity.
  cbn [buf fst snd]. now rewrite swap_rb_interleave.
Qed.

(** The equalised picture is a well-formed 224x224 RGB picture. *)
Lemma equalised_resized (image : Image) :
  let out := Spec.equalised (Spec.resized image) in
  mode out = "RGB" /\ size out = (224, 224) /\ wf_image out.
Proof.
  pose proof (resized_size image) as Hs.
  pose proof (resized_length image) as Hl.
  unfold Spec.equalised, Spec.equalised_planes, wf_image.
  pose proof (length_deinterleave _ _ Hl) as Hp.
  destruct (cv2.deinterleave (data (Spec.resized image))) as [[pr pg] pb].
  destruct Hp as (Hr & Hg & Hb).
  cbn [mode size data fst snd]. rewrite Hs. repeat split.
  change (bands "RGB") with 3. cbn [fst snd].
  rewrite length_interleave.
  - rewrite (proj2 (clahe_apply_spec _ _ _ _)). cbn [Spec.plane buf]. lia.
  - rewrite !(proj2 (clahe_apply_spec _ _ _ _)). cbn [Spec.plane buf]. lia.
  - rewrite !(proj2 (clahe_apply_spec _ _ _ _)). cbn [Spec.plane buf]. lia.
Qed.

(** The equalised picture saves as a PNG that opens as a 224x224 RGB
    picture. *)
(** The same picture, stage by stage: the channel swap, the three planes,
    their equalisation by one object, the merge, the swap back. *)
Lemma equalised_stages (image : Image) :
  let src := Spec.resized image in
  exists bgr b g r merged rgb,
    cv2.cvtColor (np_array src) cv2.COLOR_RGB2BGR = inr bgr /\
    cv2.split3 bgr = inr (b, g, r) /\
    let eb := clahe_apply two (8, 8) clahe_fresh b in
    let eg := clahe_apply two (8, 8) (snd eb) g in
    let er := clahe_apply two (8, 8) (snd eg) r in
    cv2.merge (fst eb) (fst eg) (fst er) = inr merged /\
    cv2.cvtColor merged cv2.COLOR_BGR2RGB = inr rgb /\
    fromarray rgb = inr (Spec.equalised src).
Proof.
  cbv zeta.
  pose proof (resized_mode image) as Hm.
  pose proof (resized_size image) as Hs.
  unfold Spec.equalised, Spec.equalised_planes, Spec.plane.
  destruct (Spec.resized image) as [m s d]. cbn [mode size data] in *.
  subst m s.
  change (np_array {| mode := "RGB"; size := (224, 224); data := d |})
    with {| shape := [224; 224; 3]; buf := d |}.
  cbn [fst snd].
  destruct (cv2.deinterleave d) as [[pr pg] pb] eqn:Ed.
  set (eb := clahe_apply two (8, 8) clahe_fresh
               {| shape := [224; 224]; buf := pb |}).
  set (eg := clahe_apply two (8, 8) (snd eb)
               {| shape := [224; 224]; buf := pg |}).
  set (er := clahe_apply two (8, 8) (snd eg)
               {| shape := [224; 224]; buf := pr |}).
  assert (Sb : shape (fst eb) = [224; 224]) by apply clahe_apply_spec.
  assert (Sg : shape (fst eg) = [224; 224]) by apply clahe_apply_spec.
  assert (Sr : shape (fst er) = [224; 224]) by apply clahe_apply_spec.
  exists {| shape := [224; 224; 3]; buf := cv2.swap_rb d |},
         {| shape := [224; 224]; buf := pb |},
         {| shape := [224; 224]; buf := pg |},
         {| shape := [224; 224]; buf := pr |},
         {| shape := [224; 224; 3];
            buf := cv2.interleave (buf (fst eb)) (buf (fst eg)) (buf (fst er)) |},
         {| shape := [224; 224; 3];
            buf := cv2.interleave (buf (fst er)) (buf (fst eg)) (buf (fst eb)) |}.
  split; [reflexivity|]. split.
  { unfold cv2.split3. cbn [shape buf].
    now rewrite deinterleave_swap_rb, Ed. }
  fold eb. fold eg. fold er. split.
  { unfold cv2.merge, cv2.same_shape. rewrite Sb, Sg, Sr.
    destruct (list_eq_dec Nat.eq_dec [224; 224] [224; 224]);
      [reflexivity | congruence]. }
  split; [|reflexivity].
  unfold cv2.cvtColor. cbn [shape buf]. now rewrite swap_rb_interleave.
Qed.

Lemma save_equalised (image : Image) :
  exists png,
    Png.save (Spec.equalised (Spec.resized image)) = inr png /\
    Png.open png = Some ("RGB", (224, 224)).
Proof.
  destruct (equalised_resized image) as (Hm & Hs & _).
  destruct (open_save_RGB (Spec.equalised (Spec.resized image)))
    as (png & Hsave & Hopen).
  - exact Hm.
  - rewrite Hs. cbn [fst]. lia.
  - rewrite Hs. cbn [snd]. lia.
  - exists png. split; [exact Hsave|]. now rewrite Hopen, Hs.
Qed.

End ProcessImage.

(* ===================================================================== *)
(** * Proofs: the validator *)

Lemma append_if_app (c : bool) (name : string) (missing : list string) :
  append_if c name missing = missing ++ (if c then [name] else []).
Proof. destruct c; cbn; [reflexivity | now rewrite app_nil_r]. Qed.

Lemma filter_cons_app {A} (p : A -> bool) (a : A) (l : list A) :
  filter p (a :: l) = (if p a then [a] else []) ++ filter p l.
Proof. cbn. now destruct (p a). Qed.

Lemma map_if {A B} (g : A -> B) (c : bool) (a : A) :
  map g (if c then [a] else []) = if c then [g a] else [].
Proof. now destruct c. Qed.

(** The validator lists the required fields that are unset, in the order
    of the form. *)
Lemma validate_missing_fields (f : Form) :
  validate f = map Spec.field_name (Spec.missing_fields f).
Proof.
  unfold validate, Spec.missing_fields, Spec.all_fields. cbv zeta.
  rewrite !append_if_app, !filter_cons_app, !map_app, !map_if.
  cbn [filter map app Spec.required Spec.unset Spec.field_name andb].
  rewrite <- !app_assoc, app_nil_r.
  unfold is_none, is_yes.
  repeat (f_equal; [|]); reflexivity.
Qed.

Lemma in_all_fields (x : Spec.Field) : In x Spec.all_fields.
Proof. destruct x; cbn; tauto. Qed.

Lemma field_name_inj (x y : Spec.Field) :
  Spec.field_name x = Spec.field_name y -> x = y.
Proof. destruct x, y; cbn; intros E; try reflexivity; discriminate E. Qed.

Lemma NoDup_all_fields : NoDup Spec.all_fields.
Proof.
  unfold Spec.all_fields.
  repeat (constructor; [cbn; intuition discriminate|]). constructor.
Qed.

Lemma in_validate (f : Form) (name : string) :
  In name (validate f) <->
  exists x, Spec.required f x = true /\ Spec.unset f x = true /\
            Spec.field_name x = name.
Proof.
  rewrite validate_missing_fields, in_map_iff. unfold Spec.missing_fields.
  split.
  - intros (x & E & H). apply filter_In in H as (_ & H).
    apply andb_true_iff in H. exists x. tauto.
  - intros (x & Hr & Hu & E). exists x. split; [exact E|].
    apply filter_In. split; [apply in_all_fields|]. now rewrite Hr, Hu.
Qed.

Lemma NoDup_validate (f : Form) : NoDup (validate f).
Proof.
  rewrite validate_missing_fields.
  apply Injective_map_NoDup.
  - intros x y. apply field_name_inj.
  - apply NoDup_filter, NoDup_all_fields.
Qed.

(* ===================================================================== *)
(** * Proofs: the renderer *)

Section Renderer.

Context {L : Lib}.

Lemma bind_emit {B} (e : Event) (k : unit -> M B) (h : Heap) :
  bind (emit e) k h =
  mkRun (result (k tt h)) (heap_after (k tt h)) (e :: trace (k tt h)).
Proof. reflexivity. Qed.

(** The loop shows the pairs it is given, as far as the shorter sequence
    goes, provided [float] accepts the probabilities it meets. *)
Lemma render_pairs_run (labels probs : list json) (xs : list Float.float64)
      (h : Heap) :
  Forall2 (fun p x => py_float p = inr x)
          (firstn (List.length labels) probs) xs ->
  render_pairs labels probs h =
  mkRun (inr tt) h (map (fun lx => Spec.shows (fst lx) (snd lx))
                        (combine labels xs)).
Proof.
  revert probs xs h.
  induction labels as [|label labels IH]; intros probs xs h H.
  - cbn in H. inversion H. reflexivity.
  - destruct probs as [|prob probs]; cbn in H.
    + inversion H. reflexivity.
    + inversion H as [|p x ps' xs' Hpx Htl]; subst.
      cbn [render_pairs].
      erewrite bind_pure by (rewrite Hpx; reflexivity).
      rewrite bind_emit, (IH _ _ _ Htl). reflexivity.
Qed.

Lemma render_pairs_markdown (labels probs : list json) (h : Heap) :
  forallb Spec.is_markdown (trace (render_pairs labels probs h)) = true.
Proof.
  revert probs h.
  induction labels as [|label labels IH]; intros [|prob probs] h;
    try reflexivity.
  cbn [render_pairs].
  destruct (py_float prob) as [e|x].
  - reflexivity.
  - erewrite bind_pure by reflexivity. rewrite bind_emit.
    cbn [trace forallb Spec.is_markdown andb]. apply IH.
Qed.

Lemma has_lookup (k : string) (members : list (string * json)) :
  Py.contains k (JObj members) = inr (Spec.has k members).
Proof. reflexivity. Qed.

Lemma truthy_has (k : string) (members : list (string * json)) :
  Spec.has k members = true -> Py.truthy (JObj members) = true.
Proof. destruct members; [discriminate | reflexivity]. Qed.

(** The renderer on a dict that holds something: the three cases. *)
Lemma render_results (members : list (string * json)) (h : Heap) :
  Spec.case_of members = Spec.Results ->
  exists rest,
    trace (render (JObj members) h) =
      st_success "Analysis Complete!" :: st_subheader "Results:" :: rest /\
    forallb Spec.is_markdown rest = true.
Proof.
  unfold Spec.case_of.
  destruct (Spec.has "probabilities" members) eqn:Hp; cbn [andb];
    [|destruct (Spec.has "error" members); discriminate].
  destruct (Spec.has "labels" members) eqn:Hl;
    [|destruct (Spec.has "error" members); discriminate].
  intros _. unfold render.
  rewrite (truthy_has _ _ Hp), !has_lookup, Hp, Hl.
  erewrite bind_pure by reflexivity.
  erewrite bind_pure by reflexivity.
  cbv beta iota. rewrite !bind_emit. cbn [trace].
  unfold Spec.has in Hp, Hl. unfold Py.getitem.
  destruct (Py.lookup "labels" members) as [lv|]; [|discriminate].
  destruct (Py.lookup "probabilities" members) as [pv|]; [|discriminate].
  erewrite bind_pure by reflexivity.
  erewrite bind_pure by reflexivity.
  destruct (Py.iter lv) as [e|ls]; [eexists; split; reflexivity|].
  erewrite bind_pure by reflexivity.
  destruct (Py.iter pv) as [e|ps]; [eexists; split; reflexivity|].
  erewrite bind_pure by reflexivity.
  eexists; split; [reflexivity|]. apply render_pairs_markdown.
Qed.

Lemma render_backend_error (members : list (string * json)) (h : Heap)
      (e : json) :
  Spec.has "probabilities" members && Spec.has "labels" members = false ->
  Py.lookup "error" members = Some e ->
  render (JObj members) h =
  mkRun (inr tt) h [st_error ("Backend Error: " ++ py_str e)].
Proof.
  intros Hpair He. unfold render.
  assert (Herr : Spec.has "error" members = true)
    by (unfold Spec.has; now rewrite He).
  rewrite (truthy_has _ _ Herr), !has_lookup, Herr.
  unfold Py.getitem. rewrite He.
  destruct (Spec.has "probabilities" members) eqn:Hp; cbn [andb] in Hpair;
    rewrite ?Hpair; now repeat (erewrite bind_pure by reflexivity).
Qed.

Lemma render_unexpected (members : list (string * json)) (h : Heap) :
  members <> [] ->
  Spec.case_of members = Spec.Unexpected ->
  render (JObj members) h =
  mkRun (inr tt) h [st_error "Unexpected response from backend."].
Proof.
  intros Hne. unfold Spec.case_of.
  destruct (Spec.has "probabilities" members && Spec.has "labels" members)
    eqn:Hpair; [discriminate|].
  destruct (Spec.has "error" members) eqn:Herr; [discriminate|]. intros _.
  unfold render.
  replace (Py.truthy (JObj members)) with true
    by (destruct members; [contradiction | reflexivity]).
  rewrite !has_lookup, Herr.
  destruct (Spec.has "probabilities" members) eqn:Hp; cbn [andb] in Hpair;
    rewrite ?Hpair; now repeat (erewrite bind_pure by reflexivity).
Qed.

(** The first case with two arrays. *)
Lemma render_arrays (members : list (string * json)) (h : Heap)
      (labels probs : list json) (xs : list Float.float64) :
  Py.lookup "labels" members = Some (JArr labels) ->
  Py.lookup "probabilities" members = Some (JArr probs) ->
  Forall2 (fun p x => py_float p = inr x)
          (firstn (List.length labels) probs) xs ->
  render (JObj members) h =
  mkRun (inr tt) h
        (st_success "Analysis Complete!" :: st_subheader "Results:"
           :: map (fun lx => Spec.shows (fst lx) (snd lx)) (combine labels xs)).
Proof.
  intros Hl Hp Hx. unfold render.
  assert (Hhl : Spec.has "labels" members = true)
    by (unfold Spec.has; now rewrite Hl).
  assert (Hhp : Spec.has "probabilities" members = true)
    by (unfold Spec.has; now rewrite Hp).
  rewrite (truthy_has _ _ Hhl), !has_lookup, Hhp, Hhl.
  erewrite bind_pure by reflexivity.
  erewrite bind_pure by reflexivity.
  cbv beta iota. rewrite !bind_emit. unfold Py.getitem. rewrite Hl, Hp.
  erewrite bind_pure by reflexivity.
  erewrite bind_pure by reflexivity.
  erewrite bind_pure by reflexivity.
  erewrite bind_pure by reflexivity.
  rewrite (render_pairs_run _ _ _ _ Hx). reflexivity.
Qed.

End Renderer.

(* ===================================================================== *)
(** * Proofs: traces without network calls *)

Section Offline.

Context {L : Lib}.

Lemma bind_run {A B} (m : M A) (k : A -> M B) (h h' : Heap) (a : A)
      (t : list Event) :
  m h = mkRun (inr a) h' t ->
  bind m k h =
  mkRun (result (k a h')) (heap_after (k a h')) (t ++ trace (k a h')).
Proof. intros E. unfold bind. now rewrite E. Qed.

Lemma offline_ret {A} (a : A) : Spec.offline (ret a).
Proof. intros h. reflexivity. Qed.

Lemma offline_lift {A} (x : Exn + A) : Spec.offline (lift x).
Proof. intros h. now destruct x. Qed.

Lemma offline_emit (e : Event) : is_post e = false -> Spec.offline (emit e).
Proof. intros E h. cbn. now rewrite E. Qed.

Lemma offline_bind {A B} (m : M A) (k : A -> M B) :
  Spec.offline m -> (forall a, Spec.offline (k a)) -> Spec.offline (bind m k).
Proof.
  intros Hm Hk h. specialize (Hm h). unfold bind.
  destruct (m h) as [[e|a] h' t]; cbn [result heap_after trace] in *.
  - exact Hm.
  - unfold posts in *. rewrite filter_app, Hm. apply Hk.
Qed.

Lemma offline_render_pairs (labels probs : list json) :
  Spec.offline (render_pairs labels probs).
Proof.
  revert probs.
  induction labels as [|label labels IH]; intros [|prob probs];
    try apply offline_ret.
  cbn [render_pairs].
  apply offline_bind; [apply offline_lift|]. intros x.
  apply offline_bind; [now apply offline_emit|]. intros _. apply IH.
Qed.

(** Rendering never reaches the network. *)
Lemma offline_render (predictions : json) : Spec.offline (render predictions).
Proof.
  unfold render.
  destruct (Py.truthy predictions); [|apply offline_ret].
  apply offline_bind; [apply offline_lift|]. intros has_probabilities.
  apply offline_bind.
  { destruct has_probabilities; [apply offline_lift | apply offline_ret]. }
  intros [|].
  - repeat (apply offline_bind;
            [first [now apply offline_emit | apply offline_lift] | intros ?]).
    apply offline_render_pairs.
  - apply offline_bind; [apply offline_lift|]. intros [|].
    + apply offline_bind; [apply offline_lift|]. intros e.
      now apply offline_emit.
    + now apply offline_emit.
Qed.

(* ===================================================================== *)
(** * Proofs: the prediction client *)

Lemma predict_image_run (net : Network) (image : Image) (png : list byte)
      (h : Heap) :
  Png.save image = inr png ->
  predict_image net image h =
  match request net (Spec.payload_of png) with
  | inr answer =>
      mkRun (inr answer) h [requests_post PREDICT_URL (Spec.payload_of png)]
  | inl e =>
      mkRun (inr JNull) h
            [requests_post PREDICT_URL (Spec.payload_of png);
             st_error ("Prediction API Error: " ++ e)]
  end.
Proof.
  intros E. unfold predict_image. rewrite E.
  erewrite bind_pure by reflexivity. cbv zeta. rewrite bind_emit.
  fold (Spec.payload_of png).
  destruct (request net (Spec.payload_of png)); reflexivity.
Qed.

End Offline.

(* ===================================================================== *)
(** * Proofs: the handler of the submit button *)

Section Submit.

Context {L : Lib} {Laws : LibLaws L}.

(** A complete form with a picture that decodes: the spinner, the
    processed picture, the request, and then either the error of the
    client or what the renderer makes of the answer. *)
Lemma main_valid_run (net : Network) (f : Form) (h : Heap)
      (bytes : list byte) (image : Image) :
  button f = true ->
  validate f = [] ->
  uploaded_file f = Some bytes ->
  image_open bytes = Some image ->
  exists png h',
    Png.save (Spec.equalised (Spec.resized image)) = inr png /\
    Png.open png = Some ("RGB", (224, 224)) /\
    main net f h =
      let later :=
        match request net (Spec.payload_of png) with
        | inr answer => render answer h'
        | inl e => mkRun (inr tt) h' [st_error ("Prediction API Error: " ++ e)]
        end in
      mkRun (result later) (heap_after later)
            (st_spinner "Processing image and generating prediction..."
               :: st_image (Spec.equalised (Spec.resized image))
                           "Processed Image"
               :: requests_post PREDICT_URL (Spec.payload_of png)
               :: trace later).
Proof.
  intros Hb Hv Hu Hi.
  destruct (save_equalised image) as (png & Hsave & Hopen).
  exists png. eexists. split; [exact Hsave|]. split; [exact Hopen|].
  unfold main, submit. rewrite Hb, Hv, Hu. unfold Image_open. rewrite Hi.
  rewrite bind_emit.
  erewrite bind_pure by reflexivity.
  erewrite bind_pure by apply process_image_run.
  cbv beta iota. rewrite bind_emit.
  pose proof (predict_image_run net _ png
                (h ++ [mkCLAHE two (8, 8)
                         (snd (fst (fst (Spec.equalised_planes
                                           (Spec.resized image)))))])
                Hsave) as Hp.
  destruct (request net (Spec.payload_of png)) as [e|answer];
    rewrite (bind_run _ _ _ _ _ _ Hp); reflexivity.
Qed.

End Submit.

(* ===================================================================== *)
(** * Proofs: two-decimal rounding *)

(** [round_half_even n d] is an integer nearest to [n / d], the even one
    of the two when [n / d] lies half way. *)
Lemma round_half_even_nearest (n d : N) :
  (0 < d)%N ->
  let q := Float.round_half_even n d in
  (2 * Z.abs (Z.of_N n - Z.of_N (q * d)) <= Z.of_N d)%Z /\
  ((2 * Z.abs (Z.of_N n - Z.of_N (q * d)) = Z.of_N d)%Z -> N.even q = true).
Proof.
  intros Hd. unfold Float.round_half_even.
  pose proof (N.div_mod n d ltac:(lia)) as E.
  pose proof (N.mod_upper_bound n d ltac:(lia)) as Hr.
  set (k := (n / d)%N) in *. set (r := (n mod d)%N) in *.
  destruct (N.compare_spec (2 * r) d) as [C|C|C].
  - destruct (N.even k) eqn:Ev; cbv zeta.
    + split; [nia | intros _; exact Ev].
    + split; [nia|]. intros _.
      rewrite N.add_1_r, N.even_succ, <- N.negb_even, Ev. reflexivity.
  - cbv zeta. split; [nia|]. intros Habs. exfalso. nia.
  - cbv zeta. split; [nia|]. intros Habs. exfalso. nia.
Qed.

(** The two decimals printed are the hundredths nearest to the double. *)
Lemma hundredths_nearest (m : N) (p : positive) :
  let h := Float.hundredths m (Zneg p) in
  (2 * Z.abs (Z.of_N (m * 100) - Z.of_N (h * 2 ^ Npos p)) <= Z.of_N (2 ^ Npos p))%Z.
Proof.
  cbv zeta. unfold Float.hundredths.
  apply round_half_even_nearest.
  apply N.neq_0_lt_0, N.pow_nonzero. discriminate.
Qed.

(* ===================================================================== *)
(** * The stub library obeys the laws *)

Lemma stub_laws : LibLaws Stub.lib.
Proof.
  constructor.
  - intros i. split; [reflexivity|].
    unfold wf_image. cbn [convert Stub.lib Stub.blank data size mode].
    apply repeat_length.
  - intros s i. repeat split.
    unfold wf_image. cbn [resize Stub.lib Stub.blank data size mode].
    apply repeat_length.
  - intros c g st a. split; [reflexivity|].
    cbn [clahe_apply Stub.lib Stub.apply fst buf]. apply length_map.
Qed.

(* ===================================================================== *)
(** * Proofs: what the page shows of a result block *)

Lemma strip_tags_free (s t : string) :
  Spec.tag_free s ->
  Spec.strip_tags false (s ++ t) = (s ++ Spec.strip_tags false t)%string.
Proof.
  unfold Spec.tag_free.
  induction s as [|c s IH]; intros H; [reflexivity|].
  cbn [list_ascii_of_string forallb] in H.
  apply andb_true_iff in H as (Hc & Hs).
  cbn [String.append Spec.strip_tags].
  destruct (Ascii.eqb c "<"); [discriminate|]. now rewrite IH.
Qed.

Lemma shown_result_line (label prob : string) :
  Spec.tag_free label -> Spec.tag_free prob ->
  Spec.strip_tags false (result_line label prob) =
  (label ++ ": " ++ prob ++ "%")%string.
Proof.
  intros Hl Hp. unfold result_line.
  cbn [String.append Spec.strip_tags Ascii.eqb Bool.eqb negb].
  rewrite strip_tags_free by assumption.
  cbn [String.append Spec.strip_tags Ascii.eqb Bool.eqb negb].
  rewrite strip_tags_free by assumption.
  reflexivity.
Qed.

(* ===================================================================== *)
(** * The properties of the specification *)

(** C1.  A submission with a required field unset: the validator's list is
    not empty and holds exactly the names of the required fields that are
    unset - "Years with Diabetes" being required if and only if the
    diabetes radio says "Yes" - each once, in the order of the form; the
    run shows that list in one error message and issues no network
    call. *)
Theorem validator_lists_unset_fields {L : Lib} (net : Network) (f : Form)
        (h : Heap) :
  button f = true ->
  (exists x, Spec.required f x = true /\ Spec.unset f x = true) ->
  validate f <> [] /\
  validate f = map Spec.field_name (Spec.missing_fields f) /\
  (forall name,
      In name (validate f) <->
      exists x, Spec.required f x = true /\ Spec.unset f x = true /\
                Spec.field_name x = name) /\
  NoDup (validate f) /\
  main net f h =
    mkRun (inr tt) h
          [st_error ("Please complete the following required fields: "
                       ++ join ", " (validate f))] /\
  posts (trace (main net f h)) = [].
Proof.
  intros Hb (x & Hr & Hu).
  assert (Hin : In (Spec.field_name x) (validate f))
    by (apply in_validate; eauto).
  assert (Hne : validate f <> []) by (intros E; now rewrite E in Hin).
  assert (Hrun : main net f h =
                 mkRun (inr tt) h
                   [st_error ("Please complete the following required fields: "
                                ++ join ", " (validate f))]).
  { unfold main, submit. rewrite Hb.
    destruct (validate f); [contradiction | reflexivity]. }
  repeat split.
  - exact Hne.
  - apply validate_missing_fields.
  - apply in_validate.
  - apply in_validate.
  - apply NoDup_validate.
  - exact Hrun.
  - now rewrite Hrun.
Qed.

Lemma validator_lists_unset_fields_witness :
  validate (Stub.form None) <> [] /\
  validate (Stub.form None) =
    map Spec.field_name (Spec.missing_fields (Stub.form None)) /\
  (forall name,
      In name (validate (Stub.form None)) <->
      exists x, Spec.required (Stub.form None) x = true /\
                Spec.unset (Stub.form None) x = true /\
                Spec.field_name x = name) /\
  NoDup (validate (Stub.form None)) /\
  main (L := Stub.lib) (Stub.answers 200 Stub.grades) (Stub.form None) [] =
    mkRun (inr tt) []
          [st_error ("Please complete the following required fields: "
                       ++ join ", " (validate (Stub.form None)))] /\
  posts (trace (main (L := Stub.lib) (Stub.answers 200 Stub.grades)
                     (Stub.form None) [])) = [].
Proof.
  apply (validator_lists_unset_fields (L := Stub.lib)).
  - reflexivity.
  - exists Spec.ImageUpload. split; reflexivity.
Defined.

(** C2.  What the code does when the prediction service answers [{}]: an
    empty dict is false for [if predictions:], so the renderer shows
    nothing, and the run of a complete submission ends after the request
    without any message - not the generic one, which every other dict
    without the three keys gets. *)
Theorem empty_object_shows_nothing {L : Lib} {Laws : LibLaws L}
        (net : Network) (f : Form) (h : Heap) (bytes : list byte)
        (image : Image) (response : Response) :
  button f = true ->
  validate f = [] ->
  uploaded_file f = Some bytes ->
  image_open bytes = Some image ->
  (forall payload, net PREDICT_URL payload = PostReturns response) ->
  raise_for_status response = None ->
  response_json response = inr (JObj []) ->
  (forall h', render (JObj []) h' = mkRun (inr tt) h' []) /\
  result (main net f h) = inr tt /\
  (exists payload,
      trace (main net f h) =
      [st_spinner "Processing image and generating prediction...";
       st_image (Spec.equalised (resize (224, 224) (convert "RGB" image)))
                "Processed Image";
       requests_post PREDICT_URL payload]) /\
  (forall k v h',
      Spec.case_of [(k, v)] = Spec.Unexpected ->
      render (JObj [(k, v)]) h' =
      mkRun (inr tt) h' [st_error "Unexpected response from backend."]).
Proof.
  intros Hb Hv Hu Hi Hnet Hstatus Hjson.
  destruct (main_valid_run net f h bytes image Hb Hv Hu Hi)
    as (png & h' & _ & _ & Hrun).
  assert (Hreq : request net (Spec.payload_of png) = inr (JObj []))
    by (unfold request; now rewrite Hnet, Hstatus).
  rewrite Hreq in Hrun. cbv zeta in Hrun.
  split; [reflexivity|]. split; [now rewrite Hrun|]. split.
  - exists (Spec.payload_of png). now rewrite Hrun.
  - intros k v h''. apply render_unexpected. discriminate.
Qed.

Lemma empty_object_shows_nothing_witness :
  (forall h', render (L := Stub.lib) (JObj []) h' = mkRun (inr tt) h' []) /\
  result (main (L := Stub.lib) (Stub.answers 200 (JObj []))
               (Stub.form (Some Stub.tiny_png)) []) = inr tt /\
  (exists payload,
      trace (main (L := Stub.lib) (Stub.answers 200 (JObj []))
                  (Stub.form (Some Stub.tiny_png)) []) =
      [st_spinner "Processing image and generating prediction...";
       st_image (Spec.equalised (L := Stub.lib)
                   (resize (Lib := Stub.lib) (224, 224)
                      (convert (Lib := Stub.lib) "RGB"
                         (Stub.blank "L" (1, 1) Byte.x00))))
                "Processed Image";
       requests_post PREDICT_URL payload]) /\
  (forall k v h',
      Spec.case_of [(k, v)] = Spec.Unexpected ->
      render (L := Stub.lib) (JObj [(k, v)]) h' =
      mkRun (inr tt) h' [st_error "Unexpected response from backend."]).
Proof.
  apply (empty_object_shows_nothing (L := Stub.lib) (Laws := stub_laws)
           (Stub.answers 200 (JObj [])) (Stub.form (Some Stub.tiny_png)) []
           Stub.tiny_png (Stub.blank "L" (1, 1) Byte.x00)
           {| status_code := 200; reason := "";
              response_url := PREDICT_URL;
              response_json := inr (JObj []) |});
    reflexivity.
Defined.

(** C3.  For every picture Pillow has decoded, [process_image] ends well
    and returns the source converted to RGB and resized to 224x224
    together with its equalisation.  The equalisation is reached through
    the stages of the source, each of which succeeds: RGB to BGR, the split
    into three planes, CLAHE with clip limit 2.0 and tiles 8x8 by one
    object on the blue, the green and the red plane in turn, the merge in
    that order, BGR to RGB.  It is a well-formed 224x224 RGB picture whose
    red, green and blue planes are the equalised red, green and blue planes
    of the resized source. *)
Theorem process_image_equalises {L : Lib} {Laws : LibLaws L} (image : Image)
        (h : Heap) :
  let src := resize (224, 224) (convert "RGB" image) in
  let out := Spec.equalised src in
  result (process_image image h) = inr (src, out) /\
  trace (process_image image h) = [] /\
  (mode src = "RGB" /\ size src = (224, 224) /\ wf_image src) /\
  (mode out = "RGB" /\ size out = (224, 224) /\ wf_image out) /\
  (exists bgr b g r merged rgb,
      cv2.cvtColor (np_array src) cv2.COLOR_RGB2BGR = inr bgr /\
      cv2.split3 bgr = inr (b, g, r) /\
      let eb := clahe_apply two (8, 8) clahe_fresh b in
      let eg := clahe_apply two (8, 8) (snd eb) g in
      let er := clahe_apply two (8, 8) (snd eg) r in
      cv2.merge (fst eb) (fst eg) (fst er) = inr merged /\
      cv2.cvtColor merged cv2.COLOR_BGR2RGB = inr rgb /\
      fromarray rgb = inr out) /\
  (forall r g b,
      cv2.deinterleave (data src) = (r, g, b) ->
      let eb := clahe_apply two (8, 8) clahe_fresh (Spec.plane src b) in
      let eg := clahe_apply two (8, 8) (snd eb) (Spec.plane src g) in
      let er := clahe_apply two (8, 8) (snd eg) (Spec.plane src r) in
      cv2.deinterleave (data out) = (buf (fst er), buf (fst eg), buf (fst eb))).
Proof.
  cbv zeta. fold (Spec.resized image).
  rewrite process_image_run. cbn [result trace].
  split; [reflexivity|]. split; [reflexivity|].
  split; [auto using resized_mode, resized_size, resized_wf|].
  split; [apply (equalised_resized image)|].
  split; [apply (equalised_stages image)|].
  intros r g b E.
  pose proof (length_deinterleave _ _ (resized_length image)) as Hp.
  unfold Spec.equalised, Spec.equalised_planes. rewrite E in *.
  destruct Hp as (Hr & Hg & Hb). cbn [data fst snd].
  apply deinterleave_interleave;
    rewrite !(proj2 (clahe_apply_spec _ _ _ _)); cbn [Spec.plane buf];
    congruence.
Qed.

Lemma process_image_equalises_witness :
  let image := Stub.blank "L" (1, 1) Byte.x07 in
  let src := resize (Lib := Stub.lib) (224, 224)
               (convert (Lib := Stub.lib) "RGB" image) in
  let out := Spec.equalised (L := Stub.lib) src in
  result (process_image (L := Stub.lib) image []) = inr (src, out) /\
  trace (process_image (L := Stub.lib) image []) = [] /\
  (mode src = "RGB" /\ size src = (224, 224) /\ wf_image src) /\
  (mode out = "RGB" /\ size out = (224, 224) /\ wf_image out) /\
  (exists bgr b g r merged rgb,
      cv2.cvtColor (np_array src) cv2.COLOR_RGB2BGR = inr bgr /\
      cv2.split3 bgr = inr (b, g, r) /\
      let eb := clahe_apply (Lib := Stub.lib) two (8, 8) clahe_fresh b in
      let eg := clahe_apply (Lib := Stub.lib) two (8, 8) (snd eb) g in
      let er := clahe_apply (Lib := Stub.lib) two (8, 8) (snd eg) r in
      cv2.merge (fst eb) (fst eg) (fst er) = inr merged /\
      cv2.cvtColor merged cv2.COLOR_BGR2RGB = inr rgb /\
      fromarray rgb = inr out) /\
  (forall r g b,
      cv2.deinterleave (data src) = (r, g, b) ->
      let eb := clahe_apply (Lib := Stub.lib) two (8, 8) clahe_fresh
                  (Spec.plane src b) in
      let eg := clahe_apply (Lib := Stub.lib) two (8, 8) (snd eb)
                  (Spec.plane src g) in
      let er := clahe_apply (Lib := Stub.lib) two (8, 8) (snd eg)
                  (Spec.plane src r) in
      cv2.deinterleave (data out) = (buf (fst er), buf (fst eg), buf (fst eb))).
Proof.
  exact (process_image_equalises (L := Stub.lib) (Laws := stub_laws)
           (Stub.blank "L" (1, 1) Byte.x07) []).
Defined.

(** C4, as the code has it.  A complete form whose upload is no picture:
    the run ends in the image library's exception and posts nothing. *)
Lemma undecodable_upload_posts_nothing :
  button (Stub.form (Some [])) = true /\
  validate (Stub.form (Some [])) = [] /\
  result (main (L := Stub.lib) (Stub.answers 200 Stub.grades)
               (Stub.form (Some [])) []) = inl UnidentifiedImageError /\
  posts (trace (main (L := Stub.lib) (Stub.answers 200 Stub.grades)
                     (Stub.form (Some [])) [])) = [].
Proof. repeat split. Qed.

(** C4, amended.  A complete form whose upload the image library decodes:
    exactly one POST goes out, to the prediction URL; its body is an object
    with the one key [file], whose text - ASCII, so that decoding the
    base64 bytes as UTF-8 changes nothing - decodes from base64 to the PNG
    file of the processed picture, a 224x224 RGB picture. *)
Theorem valid_submission_posts_once {L : Lib} {Laws : LibLaws L}
        (net : Network) (f : Form) (h : Heap) (bytes : list byte)
        (image : Image) :
  button f = true ->
  validate f = [] ->
  uploaded_file f = Some bytes ->
  image_open bytes = Some image ->
  let processed := Spec.equalised (resize (224, 224) (convert "RGB" image)) in
  exists png,
    Png.save processed = inr png /\
    posts (trace (main net f h)) =
      [requests_post PREDICT_URL
         (JObj [("file", JStr (Bytes.to_str (Base64.b64encode png)))])] /\
    forallb Bytes.is_ascii (Base64.b64encode png) = true /\
    Base64.b64decode (Bytes.of_str (Bytes.to_str (Base64.b64encode png)))
      = Some png /\
    Png.open png = Some ("RGB", (224, 224)) /\
    mode processed = "RGB" /\ size processed = (224, 224).
Proof.
  intros Hb Hv Hu Hi. cbv zeta. fold (Spec.resized image).
  destruct (main_valid_run net f h bytes image Hb Hv Hu Hi)
    as (png & h' & Hsave & Hopen & Hrun).
  exists png. split; [exact Hsave|].
  split; [|split; [apply b64encode_ascii|]];
    [|split; [|split; [exact Hopen | split; apply (equalised_resized image)]]].
  - rewrite Hrun. cbv zeta. unfold posts. cbn [trace filter is_post].
    f_equal. destruct (request net (Spec.payload_of png)) as [e|answer].
    + reflexivity.
    + apply offline_render.
  - now rewrite of_str_to_str, b64decode_b64encode.
Qed.

Lemma valid_submission_posts_once_witness :
  let processed :=
    Spec.equalised (L := Stub.lib)
      (resize (Lib := Stub.lib) (224, 224)
         (convert (Lib := Stub.lib) "RGB" (Stub.blank "L" (1, 1) Byte.x00))) in
  exists png,
    Png.save (L := Stub.lib) processed = inr png /\
    posts (trace (main (L := Stub.lib) (Stub.answers 200 Stub.grades)
                       (Stub.form (Some Stub.tiny_png)) [])) =
      [requests_post PREDICT_URL
         (JObj [("file", JStr (Bytes.to_str (Base64.b64encode png)))])] /\
    forallb Bytes.is_ascii (Base64.b64encode png) = true /\
    Base64.b64decode (Bytes.of_str (Bytes.to_str (Base64.b64encode png)))
      = Some png /\
    Png.open png = Some ("RGB", (224, 224)) /\
    mode processed = "RGB" /\ size processed = (224, 224).
Proof.
  apply (valid_submission_posts_once (L := Stub.lib) (Laws := stub_laws)
           (Stub.answers 200 Stub.grades) (Stub.form (Some Stub.tiny_png)) []
           Stub.tiny_png (Stub.blank "L" (1, 1) Byte.x00));
    reflexivity.
Defined.

(** C5, as the code has it.  A response with status 300 - not a 2xx one -
    that carries JSON: [raise_for_status] lets it pass, the client returns
    its body and shows no error. *)
Lemma status_300_is_returned :
  ((200 <=? 300) && (300 <? 300))%Z = false /\
  result (predict_image (L := Stub.lib) (Stub.answers 300 Stub.grades)
            (Stub.blank "RGB" (1, 1) Byte.x00) []) = inr Stub.grades /\
  filter Spec.is_error
    (trace (predict_image (L := Stub.lib) (Stub.answers 300 Stub.grades)
              (Stub.blank "RGB" (1, 1) Byte.x00) [])) = [].
Proof. repeat split. Qed.

(** C5, amended.  The client posts once.  When the request raises, when
    the status lies in 400..599 (where [raise_for_status] raises), or when
    the body is not JSON, it shows an error naming the text of the
    exception and returns [None], on which the renderer does nothing.  In
    every other case - whatever the status, 2xx or not - it returns the
    parsed body as it is. *)
Theorem predict_image_outcomes {L : Lib} (net : Network) (image : Image)
        (h : Heap) :
  match Png.save image with
  | inl e => predict_image net image h = mkRun (inl e) h []
  | inr png =>
      let payload :=
        JObj [("file", JStr (Bytes.to_str (Base64.b64encode png)))] in
      let fails text :=
        predict_image net image h =
        mkRun (inr JNull) h
              [requests_post PREDICT_URL payload;
               st_error ("Prediction API Error: " ++ text)] in
      match net PREDICT_URL payload with
      | PostRaises text => fails text
      | PostReturns response =>
          if ((400 <=? status_code response)
              && (status_code response <? 600))%Z
          then exists text,
                 raise_for_status response = Some text /\ fails text
          else
            match response_json response with
            | inl text => fails text
            | inr answer =>
                predict_image net image h =
                mkRun (inr answer) h [requests_post PREDICT_URL payload]
            end
      end
  end /\
  render JNull h = mkRun (inr tt) h [].
Proof.
  split; [|reflexivity].
  destruct (Png.save image) as [e|png] eqn:Hsave.
  - unfold predict_image. now rewrite Hsave.
  - cbv zeta. rewrite (predict_image_run net image png h Hsave).
    unfold Spec.payload_of, request.
    destruct (net PREDICT_URL _) as [text|response]; [reflexivity|].
    unfold raise_for_status.
    destruct (400 <=? status_code response)%Z eqn:H4;
      destruct (status_code response <? 500)%Z eqn:H5;
      destruct (500 <=? status_code response)%Z eqn:H500;
      destruct (status_code response <? 600)%Z eqn:H6;
      cbn [andb]; try (eexists; split; reflexivity);
      try (destruct (response_json response); reflexivity); lia.
Qed.

(** C6, as the code has it.  The doubles a JSON parser makes of 72.345 and
    27.655 are the ones of [Stub.grades]; the first lies below 72.345, and
    the page does not show "72.35" for it. *)
Lemma grade_example_rounds_down :
  Float.nearest_to 72345 1000 5090826797533102 46 /\
  Float.nearest_to 27655 1000 7784190480933192 48 /\
  ~ (forall (L : Lib) (h : Heap),
        Spec.shown_lines (trace (render Stub.grades h)) =
        ["Grade 1: 72.35%"; "Grade 2: 27.66%"]).
Proof.
  split; [|split].
  - unfold Float.nearest_to. repeat split; vm_compute; congruence.
  - unfold Float.nearest_to. repeat split; vm_compute; congruence.
  - intros H. specialize (H Stub.lib []). vm_compute in H. discriminate H.
Qed.

(** C6, amended.  A dict with an array under [labels] and an array under
    [probabilities] whose entries [float] accepts: the renderer announces
    the results and then shows one block per pair, in array order, as far
    as the shorter array goes.  A block is the label in bold, a colon, the
    probability and a percent sign; on the page it reads
    "label: probability%" when the label holds no markup.  The probability
    is the binary value of the double rounded to the nearest hundredth,
    ties to even.  So for labels ["Grade 1", "Grade 2"] and probabilities
    [72.345, 27.655] the page shows "Grade 1: 72.34%" then
    "Grade 2: 27.66%". *)
Theorem renderer_shows_pairs {L : Lib} (h : Heap)
        (members : list (string * json)) (labels probs : list json)
        (xs : list Float.float64) :
  Py.lookup "labels" members = Some (JArr labels) ->
  Py.lookup "probabilities" members = Some (JArr probs) ->
  Forall2 (fun p x => py_float p = inr x)
          (firstn (List.length labels) probs) xs ->
  render (JObj members) h =
    mkRun (inr tt) h
          (st_success "Analysis Complete!" :: st_subheader "Results:"
             :: map (fun lx => Spec.shows (fst lx) (snd lx))
                    (combine labels xs)) /\
  (forall label x,
      Spec.tag_free (py_str label) -> Spec.tag_free (Float.format_2f x) ->
      Spec.shown_lines [Spec.shows label x] =
      [(py_str label ++ ": " ++ Float.format_2f x ++ "%")%string]) /\
  (forall neg m p,
      let hs := Float.hundredths m (Zneg p) in
      Float.format_2f (Float.Fin neg m (Zneg p)) =
        ((if neg then "-" else "") ++ dec_of_N (hs / 100) ++ "."
           ++ Float.two_digits (hs mod 100))%string /\
      (2 * Z.abs (Z.of_N (m * 100) - Z.of_N (hs * 2 ^ Npos p))
         <= Z.of_N (2 ^ Npos p))%Z) /\
  Spec.shown_lines (trace (render Stub.grades h)) =
    ["Grade 1: 72.34%"; "Grade 2: 27.66%"].
Proof.
  intros Hl Hp Hx. split; [|split; [|split]].
  - exact (render_arrays _ _ _ _ _ Hl Hp Hx).
  - intros label x Hlabel Hprob. unfold Spec.shown_lines, Spec.shows.
    cbn [flat_map app]. now rewrite shown_result_line.
  - intros neg m p. split; [reflexivity | apply hundredths_nearest].
  - unfold Stub.grades.
    rewrite (render_arrays
               [("labels", JArr [JStr "Grade 1"; JStr "Grade 2"]);
                ("probabilities",
                 JArr [JFloat Stub.d72_345; JFloat Stub.d27_655])]
               h [JStr "Grade 1"; JStr "Grade 2"]
               [JFloat Stub.d72_345; JFloat Stub.d27_655]
               [Stub.d72_345; Stub.d27_655] eq_refl eq_refl)
      by repeat constructor.
    reflexivity.
Qed.

Lemma renderer_shows_pairs_witness :
  render (L := Stub.lib) Stub.grades [] =
    mkRun (inr tt) []
          (st_success "Analysis Complete!" :: st_subheader "Results:"
             :: map (fun lx => Spec.shows (L := Stub.lib) (fst lx) (snd lx))
                    (combine [JStr "Grade 1"; JStr "Grade 2"]
                             [Stub.d72_345; Stub.d27_655])) /\
  (forall label x,
      Spec.tag_free (py_str (L := Stub.lib) label) ->
      Spec.tag_free (Float.format_2f x) ->
      Spec.shown_lines [Spec.shows (L := Stub.lib) label x] =
      [(py_str (L := Stub.lib) label ++ ": " ++ Float.format_2f x ++ "%")%string]) /\
  (forall neg m p,
      let hs := Float.hundredths m (Zneg p) in
      Float.format_2f (Float.Fin neg m (Zneg p)) =
        ((if neg then "-" else "") ++ dec_of_N (hs / 100) ++ "."
           ++ Float.two_digits (hs mod 100))%string /\
      (2 * Z.abs (Z.of_N (m * 100) - Z.of_N (hs * 2 ^ Npos p))
         <= Z.of_N (2 ^ Npos p))%Z) /\
  Spec.shown_lines (trace (render (L := Stub.lib) Stub.grades [])) =
    ["Grade 1: 72.34%"; "Grade 2: 27.66%"].
Proof.
  apply (renderer_shows_pairs (L := Stub.lib) []
           [("labels", JArr [JStr "Grade 1"; JStr "Grade 2"]);
            ("probabilities", JArr [JFloat Stub.d72_345; JFloat Stub.d27_655])]
           [JStr "Grade 1"; JStr "Grade 2"]
           [JFloat Stub.d72_345; JFloat Stub.d27_655]
           [Stub.d72_345; Stub.d27_655]).
  - reflexivity.
  - reflexivity.
  - repeat constructor.
Defined.

(** C7.  A dict that lacks [labels] or [probabilities] and holds [error]:
    the renderer shows one message, "Backend Error: " followed by the error
    string as it is, and nothing else - so two such answers with the same
    error show the same, whatever else they hold.  The three cases exclude
    one another and go by priority: both arrays first (the success notice,
    the heading and result blocks, no error message), then [error], then
    the generic message. *)
Theorem renderer_backend_error {L : Lib} (h : Heap)
        (members : list (string * json)) (e : json) :
  Spec.has "probabilities" members && Spec.has "labels" members = false ->
  Py.lookup "error" members = Some e ->
  render (JObj members) h =
    mkRun (inr tt) h [st_error ("Backend Error: " ++ py_str e)] /\
  (forall s, e = JStr s -> py_str e = s) /\
  (forall others,
      Spec.has "probabilities" others && Spec.has "labels" others = false ->
      Py.lookup "error" others = Some e ->
      render (JObj others) h = render (JObj members) h) /\
  (forall others,
      others <> [] ->
      match Spec.case_of others with
      | Spec.Results =>
          exists rest,
            trace (render (JObj others) h) =
              st_success "Analysis Complete!" :: st_subheader "Results:"
                :: rest /\
            forallb Spec.is_markdown rest = true
      | Spec.BackendError =>
          exists e',
            Py.lookup "error" others = Some e' /\
            render (JObj others) h =
              mkRun (inr tt) h [st_error ("Backend Error: " ++ py_str e')]
      | Spec.Unexpected =>
          render (JObj others) h =
            mkRun (inr tt) h [st_error "Unexpected response from backend."]
      end).
Proof.
  intros Hpair He. split; [|split; [|split]].
  - now apply render_backend_error.
  - now intros s ->.
  - intros others Hpair' He'.
    now rewrite !(render_backend_error _ _ e).
  - intros others Hne.
    destruct (Spec.case_of others) eqn:Hc.
    + now apply render_results.
    + unfold Spec.case_of in Hc.
      destruct (Spec.has "probabilities" others && Spec.has "labels" others)
        eqn:Hpair'; [discriminate|].
      unfold Spec.has in Hc at 1.
      destruct (Py.lookup "error" others) as [e'|] eqn:He'; [|discriminate].
      exists e'. split; [reflexivity|]. now apply render_backend_error.
    + now apply render_unexpected.
Qed.

Lemma renderer_backend_error_witness :
  render (L := Stub.lib) (JObj [("error", JStr "model unavailable")]) [] =
    mkRun (inr tt) []
          [st_error ("Backend Error: "
                       ++ py_str (L := Stub.lib) (JStr "model unavailable"))] /\
  (forall s, JStr "model unavailable" = JStr s ->
             py_str (L := Stub.lib) (JStr "model unavailable") = s) /\
  (forall others,
      Spec.has "probabilities" others && Spec.has "labels" others = false ->
      Py.lookup "error" others = Some (JStr "model unavailable") ->
      render (L := Stub.lib) (JObj others) [] =
      render (L := Stub.lib) (JObj [("error", JStr "model unavailable")]) []) /\
  (forall others,
      others <> [] ->
      match Spec.case_of others with
      | Spec.Results =>
          exists rest,
            trace (render (L := Stub.lib) (JObj others) []) =
              st_success "Analysis Complete!" :: st_subheader "Results:"
                :: rest /\
            forallb Spec.is_markdown rest = true
      | Spec.BackendError =>
          exists e',
            Py.lookup "error" others = Some e' /\
            render (L := Stub.lib) (JObj others) [] =
              mkRun (inr tt) []
                    [st_error ("Backend Error: " ++ py_str (L := Stub.lib) e')]
      | Spec.Unexpected =>
          render (L := Stub.lib) (JObj others) [] =
            mkRun (inr tt) [] [st_error "Unexpected response from backend."]
      end).
Proof.
  apply (renderer_backend_error (L := Stub.lib) []
           [("error", JStr "model unavailable")] (JStr "model unavailable"));
    reflexivity.
Defined.

(** C8.  Two invocations of [process_image] on one picture return the same
    pictures, byte for byte, whatever objects the interpreter holds when
    each starts - in particular when the second starts from the heap the
    first has left: each makes its own CLAHE object, and no buffer of an
    earlier object is read.  The pictures are well-formed 224x224 RGB
    ones. *)
Theorem process_image_deterministic {L : Lib} {Laws : LibLaws L}
        (image : Image) (h1 h2 : Heap) :
  result (process_image image h1) = result (process_image image h2) /\
  result (process_image image (heap_after (process_image image h1))) =
    result (process_image image h1) /\
  exists original out,
    result (process_image image h1) = inr (original, out) /\
    data out = data (Spec.equalised (resize (224, 224) (convert "RGB" image))) /\
    mode out = "RGB" /\ size out = (224, 224) /\ wf_image out.
Proof.
  rewrite !process_image_run. cbn [result heap_after].
  repeat split.
  exists (Spec.resized image), (Spec.equalised (Spec.resized image)).
  split; [reflexivity|]. split; [reflexivity|].
  apply (equalised_resized image).
Qed.

Lemma process_image_deterministic_witness :
  result (process_image (L := Stub.lib) (Stub.blank "L" (1, 1) Byte.x07) [])
    = result (process_image (L := Stub.lib) (Stub.blank "L" (1, 1) Byte.x07)
                [mkCLAHE (L := Stub.lib) two (8, 8) 5]) /\
  result (process_image (L := Stub.lib) (Stub.blank "L" (1, 1) Byte.x07)
            (heap_after
               (process_image (L := Stub.lib)
                  (Stub.blank "L" (1, 1) Byte.x07) []))) =
    result (process_image (L := Stub.lib) (Stub.blank "L" (1, 1) Byte.x07) [])
  /\
  exists original out,
    result (process_image (L := Stub.lib) (Stub.blank "L" (1, 1) Byte.x07) [])
      = inr (original, out) /\
    data out =
      data (Spec.equalised (L := Stub.lib)
              (resize (Lib := Stub.lib) (224, 224)
                 (convert (Lib := Stub.lib) "RGB"
                    (Stub.blank "L" (1, 1) Byte.x07)))) /\
    mode out = "RGB" /\ size out = (224, 224) /\ wf_image out.
Proof.
  exact (process_image_deterministic (L := Stub.lib) (Laws := stub_laws)
           (Stub.blank "L" (1, 1) Byte.x07) []
           [mkCLAHE (L := Stub.lib) two (8, 8) 5]).
Defined.

(** C9.  The processed picture of any decoded source, saved as PNG and
    opened again, has the mode and the size it had: 224 by 224 pixels,
    three channels. *)
Theorem png_round_trip_keeps_shape {L : Lib} {Laws : LibLaws L}
        (image : Image) (h : Heap) :
  exists original processed png,
    result (process_image image h) = inr (original, processed) /\
    Png.save processed = inr png /\
    Png.open png = Some (mode processed, size processed) /\
    size processed = (224, 224) /\
    bands (mode processed) = 3.
Proof.
  destruct (save_equalised image) as (png & Hsave & Hopen).
  destruct (equalised_resized image) as (Hm & Hs & _).
  exists (Spec.resized image), (Spec.equalised (Spec.resized image)), png.
  rewrite process_image_run, Hm, Hs. cbn [result]. repeat split; assumption.
Qed.

Lemma png_round_trip_keeps_shape_witness :
  exists original processed png,
    result (process_image (L := Stub.lib) (Stub.blank "L" (1, 1) Byte.x07) [])
      = inr (original, processed) /\
    Png.save (L := Stub.lib) processed = inr png /\
    Png.open png = Some (mode processed, size processed) /\
    size processed = (224, 224) /\
    bands (mode processed) = 3.
Proof.
  exact (png_round_trip_keeps_shape (L := Stub.lib) (Laws := stub_laws)
           (Stub.blank "L" (1, 1) Byte.x07) []).
Defined.

Lemma firstn_min_length {A} (n : nat) (l : list A) :
  firstn (Nat.min n (List.length l)) l = firstn n l.
Proof.
  destruct (Nat.le_ge_cases n (List.length l)) as [H|H].
  - now rewrite Nat.min_l.
  - rewrite Nat.min_r by assumption. now rewrite !firstn_all2 by lia.
Qed.

Lemma shows_all_markdown {L : Lib} (pairs : list (json * Float.float64)) :
  filter Spec.is_markdown
         (map (fun lx => Spec.shows (fst lx) (snd lx)) pairs) =
  map (fun lx => Spec.shows (fst lx) (snd lx)) pairs.
Proof.
  induction pairs as [|p pairs IH]; [reflexivity|].
  cbn [map filter Spec.shows Spec.is_markdown]. now rewrite IH.
Qed.

Lemma tag_free_app (s t : string) :
  Spec.tag_free s -> Spec.tag_free t -> Spec.tag_free (s ++ t)%string.
Proof.
  unfold Spec.tag_free. intros Hs Ht.
  induction s as [|c s IH]; [exact Ht|].
  cbn [String.append list_ascii_of_string forallb] in *.
  apply andb_true_iff in Hs as (Hc & Hs).
  now rewrite Hc, IH.
Qed.

Lemma digits_tag_free (u : Decimal.uint) :
  Spec.tag_free (NilEmpty.string_of_uint u).
Proof.
  unfold Spec.tag_free. induction u; cbn; auto.
Qed.

Lemma dec_of_N_tag_free (n : N) : Spec.tag_free (dec_of_N n).
Proof.
  unfold dec_of_N, NilZero.string_of_uint.
  destruct (N.to_uint n); try apply digits_tag_free. reflexivity.
Qed.

(** A formatted probability holds digits, a point, a sign or the letters
    of "nan" and "inf": no markup. *)
Lemma format_2f_tag_free (x : Float.float64) :
  Spec.tag_free (Float.format_2f x).
Proof.
  destruct x as [|neg|neg m e]; cbn [Float.format_2f].
  - reflexivity.
  - now destruct neg.
  - cbv zeta. apply tag_free_app; [now destruct neg|].
    apply tag_free_app; [apply dec_of_N_tag_free|].
    apply tag_free_app; [reflexivity|].
    unfold Float.two_digits.
    destruct (_ <? 10)%N;
      [apply tag_free_app; [reflexivity|]|]; apply dec_of_N_tag_free.
Qed.

(** What the page reads of the blocks of a list of pairs. *)
Lemma shown_blocks {L : Lib} (labels : list json)
      (xs : list Float.float64) :
  Forall (fun label => Spec.tag_free (py_str label)) labels ->
  Spec.shown_lines
    (map (fun lx => Spec.shows (fst lx) (snd lx)) (combine labels xs)) =
  map (fun lx => (py_str (fst lx) ++ ": " ++ Float.format_2f (snd lx) ++ "%")%string)
      (combine labels xs).
Proof.
  intros Hf. revert xs.
  induction Hf as [|label labels Hlabel Hf IH]; intros xs; [reflexivity|].
  destruct xs as [|x xs]; [reflexivity|].
  cbn [combine map fst snd]. unfold Spec.shown_lines in *.
  cbn [flat_map Spec.shows app]. rewrite IH.
  now rewrite shown_result_line by (assumption || apply format_2f_tag_free).
Qed.

(** C10, as the code has it.  Three labels for the two probabilities
    [null] and 1: the arrays differ in length, and the renderer does fail.
    [float(None)] raises a [TypeError] that nothing catches, after the
    notice and the heading and before any pair is shown. *)
Lemma unequal_arrays_can_raise :
  (exists labels probs,
      Cases.uneven_null =
        JObj [("labels", JArr labels); ("probabilities", JArr probs)] /\
      List.length labels = 3 /\ List.length probs = 2) /\
  (forall (L : Lib) (h : Heap),
      render Cases.uneven_null h =
      mkRun (inl TypeError) h [Page.SUCCESS; Page.HEADING]) /\
  ~ (forall (L : Lib) (h : Heap),
        result (render Cases.uneven_null h) = inr tt).
Proof.
  split; [|split].
  - now exists [JStr "Grade 1"; JStr "Grade 2"; JStr "Grade 3"],
               [JNull; JInt 1].
  - reflexivity.
  - intros H. specialize (H Stub.lib []). discriminate H.
Qed.

(** C10, amended.  A dict whose two arrays differ in length, where [float]
    accepts the probabilities that have a partner: the renderer ends
    without an exception and shows as many blocks as the shorter array has
    entries, pairing the arrays from the front - the i-th label with the
    i-th probability, read on the page as "label: probability%" when the
    label holds no markup.  What the longer array holds beyond that is not
    looked at: any answer that agrees on the paired entries shows the
    same, [float] need not accept the surplus.  So three grades for the
    probabilities [72.345, 27.655] show "Grade 1: 72.34%" and
    "Grade 2: 27.66%". *)
Theorem renderer_truncates_to_shorter {L : Lib} (h : Heap)
        (members : list (string * json)) (labels probs : list json)
        (xs : list Float.float64) :
  Py.lookup "labels" members = Some (JArr labels) ->
  Py.lookup "probabilities" members = Some (JArr probs) ->
  List.length labels <> List.length probs ->
  Forall2 (fun p x => py_float p = inr x)
          (firstn (Nat.min (List.length labels) (List.length probs)) probs)
          xs ->
  let n := Nat.min (List.length labels) (List.length probs) in
  result (render (JObj members) h) = inr tt /\
  trace (render (JObj members) h) =
    st_success "Analysis Complete!" :: st_subheader "Results:"
      :: map (fun lx => Spec.shows (fst lx) (snd lx))
             (combine (firstn n labels) xs) /\
  List.length xs = n /\
  List.length (filter Spec.is_markdown (trace (render (JObj members) h))) = n /\
  (Forall (fun label => Spec.tag_free (py_str label)) (firstn n labels) ->
   Spec.shown_lines (trace (render (JObj members) h)) =
   map (fun lx =>
          (py_str (fst lx) ++ ": " ++ Float.format_2f (snd lx) ++ "%")%string)
       (combine (firstn n labels) xs)) /\
  (forall members' labels' probs',
      Py.lookup "labels" members' = Some (JArr labels') ->
      Py.lookup "probabilities" members' = Some (JArr probs') ->
      Nat.min (List.length labels') (List.length probs') = n ->
      firstn n labels' = firstn n labels ->
      firstn n probs' = firstn n probs ->
      render (JObj members') h = render (JObj members) h) /\
  Spec.shown_lines (trace (render Cases.uneven h)) =
    ["Grade 1: 72.34%"; "Grade 2: 27.66%"].
Proof.
  intros Hl Hp Hne Hx. cbv zeta.
  pose proof (Forall2_length Hx) as Hlen.
  rewrite length_firstn in Hlen.
  assert (Hn : List.length xs =
               Nat.min (List.length labels) (List.length probs)) by lia.
  assert (Hc : forall ls : list json,
             combine ls xs =
             combine (firstn (Nat.min (List.length labels)
                                      (List.length probs)) ls) xs).
  { intros ls. rewrite <- Hn. apply combine_firstn_r. }
  assert (Hrun : forall members' labels' probs',
             Py.lookup "labels" members' = Some (JArr labels') ->
             Py.lookup "probabilities" members' = Some (JArr probs') ->
             Nat.min (List.length labels') (List.length probs') =
               Nat.min (List.length labels) (List.length probs) ->
             firstn (Nat.min (List.length labels) (List.length probs)) labels'
               = firstn (Nat.min (List.length labels) (List.length probs))
                        labels ->
             firstn (Nat.min (List.length labels) (List.length probs)) probs'
               = firstn (Nat.min (List.length labels) (List.length probs))
                        probs ->
             render (JObj members') h =
             mkRun (inr tt) h
               (st_success "Analysis Complete!" :: st_subheader "Results:"
                  :: map (fun lx => Spec.shows (fst lx) (snd lx))
                         (combine
                            (firstn (Nat.min (List.length labels)
                                             (List.length probs)) labels)
                            xs))).
  { intros members' labels' probs' Hl' Hp' Hmin Hfl Hfp.
    assert (Hx' : Forall2 (fun p x => py_float p = inr x)
                          (firstn (List.length labels') probs') xs).
    { rewrite <- firstn_min_length, Hmin, Hfp. exact Hx. }
    rewrite (render_arrays _ _ _ _ _ Hl' Hp' Hx').
    now rewrite (Hc labels'), Hfl. }
  pose proof (Hrun members labels probs Hl Hp eq_refl eq_refl eq_refl) as Hr.
  rewrite Hr. cbn [result trace].
  split; [reflexivity|]. split; [reflexivity|]. split; [exact Hn|].
  split; [|split; [|split]].
  - cbn [filter Spec.is_markdown]. rewrite shows_all_markdown, length_map.
    rewrite length_combine, length_firstn. lia.
  - intros Hfree. unfold Spec.shown_lines. cbn [flat_map app].
    now apply shown_blocks.
  - intros members' labels' probs' Hl' Hp' Hmin Hfl Hfp.
    exact (Hrun members' labels' probs' Hl' Hp' Hmin Hfl Hfp).
  - unfold Cases.uneven.
    rewrite (render_arrays
               [("labels", JArr [JStr "Grade 1"; JStr "Grade 2"; JStr "Grade 3"]);
                ("probabilities",
                 JArr [JFloat Stub.d72_345; JFloat Stub.d27_655])]
               h [JStr "Grade 1"; JStr "Grade 2"; JStr "Grade 3"]
               [JFloat Stub.d72_345; JFloat Stub.d27_655]
               [Stub.d72_345; Stub.d27_655] eq_refl eq_refl)
      by repeat constructor.
    reflexivity.
Qed.

Lemma renderer_truncates_to_shorter_witness :
  let labels := [JStr "Grade 1"; JStr "Grade 2"; JStr "Grade 3"] in
  let probs := [JFloat Stub.d72_345; JFloat Stub.d27_655] in
  let xs := [Stub.d72_345; Stub.d27_655] in
  let members := [("labels", JArr labels); ("probabilities", JArr probs)] in
  let n := Nat.min (List.length labels) (List.length probs) in
  result (render (L := Stub.lib) (JObj members) []) = inr tt /\
  trace (render (L := Stub.lib) (JObj members) []) =
    st_success "Analysis Complete!" :: st_subheader "Results:"
      :: map (fun lx => Spec.shows (L := Stub.lib) (fst lx) (snd lx))
             (combine (firstn n labels) xs) /\
  List.length xs = n /\
  List.length (filter Spec.is_markdown
                 (trace (render (L := Stub.lib) (JObj members) []))) = n /\
  (Forall (fun label => Spec.tag_free (py_str (L := Stub.lib) label))
          (firstn n labels) ->
   Spec.shown_lines (trace (render (L := Stub.lib) (JObj members) [])) =
   map (fun lx =>
          (py_str (L := Stub.lib) (fst lx) ++ ": "
             ++ Float.format_2f (snd lx) ++ "%")%string)
       (combine (firstn n labels) xs)) /\
  (forall members' labels' probs',
      Py.lookup "labels" members' = Some (JArr labels') ->
      Py.lookup "probabilities" members' = Some (JArr probs') ->
      Nat.min (List.length labels') (List.length probs') = n ->
      firstn n labels' = firstn n labels ->
      firstn n probs' = firstn n probs ->
      render (L := Stub.lib) (JObj members') [] =
      render (L := Stub.lib) (JObj members) []) /\
  Spec.shown_lines (trace (render (L := Stub.lib) Cases.uneven [])) =
    ["Grade 1: 72.34%"; "Grade 2: 27.66%"].
Proof.
  cbv zeta.
  apply (renderer_truncates_to_shorter (L := Stub.lib) []
           [("labels", JArr [JStr "Grade 1"; JStr "Grade 2"; JStr "Grade 3"]);
            ("probabilities", JArr [JFloat Stub.d72_345; JFloat Stub.d27_655])]
           [JStr "Grade 1"; JStr "Grade 2"; JStr "Grade 3"]
           [JFloat Stub.d72_345; JFloat Stub.d27_655]
           [Stub.d72_345; Stub.d27_655]).
  - reflexivity.
  - reflexivity.
  - cbn. lia.
  - repeat constructor.
Defined.

(* ===================================================================== *)
(** * Further properties: the form and its validation *)

Lemma validate_nil_iff (f : Form) :
  validate f = [] <->
  forall x, Spec.required f x && Spec.unset f x = false.
Proof.
  split.
  - intros E x.
    destruct (Spec.required f x && Spec.unset f x) eqn:H; [|reflexivity].
    apply andb_true_iff in H as (Hr & Hu).
    assert (Hin : In (Spec.field_name x) (validate f))
      by (apply in_validate; eauto).
    now rewrite E in Hin.
  - intros H. destruct (validate f) as [|name rest] eqn:E; [reflexivity|].
    assert (Hin : In name (validate f)) by (rewrite E; now left).
    apply in_validate in Hin as (x & Hr & Hu & _).
    specialize (H x). now rewrite Hr, Hu in H.
Qed.

Lemma in_validate_field (f : Form) (x : Spec.Field) :
  In (Spec.field_name x) (validate f) <->
  Spec.required f x = true /\ Spec.unset f x = true.
Proof.
  rewrite in_validate. split.
  - intros (y & Hr & Hu & E). apply field_name_inj in E. now subst y.
  - intros (Hr & Hu). eauto.
Qed.

(** X1.  "Diabetes Status" and "Years with Diabetes" are never reported
    together: the years are asked for only once the radio says "Yes", and
    then the status is not missing. *)
Theorem status_and_years_exclude (f : Form) :
  ~ (In "Diabetes Status" (validate f) /\
     In "Years with Diabetes" (validate f)).
Proof.
  intros (Hs & Hy).
  apply (in_validate_field f Spec.DiabetesStatus) in Hs as (_ & Hs).
  apply (in_validate_field f Spec.YearsWithDiabetes) in Hy as (Hy & _).
  cbn in Hs, Hy. destruct (diabetes f); discriminate.
Qed.

(** X2.  The test of line 143 never reads an unbound name: the form
    section binds [diabetes_years] exactly when the left operand of the
    [and] holds, so the test ends without [NameError], with the value the
    validator uses - while the right operand alone would fail on every
    form whose radio does not say "Yes". *)
Theorem years_test_is_safe (f : Form) :
  Widgets.years_test (diabetes f) (Widgets.years_variable f) =
    Some (is_yes (diabetes f) && is_none (diabetes_years f)) /\
  (is_yes (diabetes f) = false ->
   Widgets.years_variable f = None /\
   forall answer, is_yes answer = true ->
                  Widgets.years_test answer (Widgets.years_variable f) = None).
Proof.
  unfold Widgets.years_test, Widgets.years_variable.
  destruct (is_yes (diabetes f)) eqn:E; cbn [andb].
  - split; [reflexivity | discriminate].
  - split; [reflexivity|]. intros _. split; [reflexivity|].
    now intros answer ->.
Qed.

Lemma drawn_facts (f : Form) :
  Widgets.drawn f = true ->
  dob f <> None /\ (1 <= age f <= 120)%Z /\
  (is_yes (diabetes f) = true -> diabetes_years f <> None).
Proof.
  unfold Widgets.drawn. intros H.
  repeat (apply andb_true_iff in H as (H & ?)).
  repeat split.
  - destruct (dob f); [discriminate | discriminate H].
  - lia.
  - lia.
  - intros Hy. rewrite Hy in *. destruct (diabetes_years f); discriminate.
Qed.

(** X3.  On the forms the widgets can produce, three of the ten checks
    never fire: the date box always holds a date, the age box a number
    from 1, and the box of the years, once drawn, a number - so "Date of
    Birth", "Age" and "Years with Diabetes" are never reported. *)
Theorem checks_that_never_fire (f : Form) :
  Widgets.drawn f = true ->
  ~ In "Date of Birth" (validate f) /\
  ~ In "Age" (validate f) /\
  ~ In "Years with Diabetes" (validate f).
Proof.
  intros H. destruct (drawn_facts f H) as (Hd & Ha & Hy).
  repeat split.
  - intros Hin.
    apply (in_validate_field f Spec.DateOfBirth) in Hin as (_ & Hin).
    cbn in Hin. destruct (dob f); [discriminate | contradiction].
  - intros Hin.
    apply (in_validate_field f Spec.Age) in Hin as (_ & Hin).
    cbn in Hin. lia.
  - intros Hin.
    apply (in_validate_field f Spec.YearsWithDiabetes) in Hin as (Hr & Hu).
    cbn in Hr, Hu. unfold is_yes in Hy. specialize (Hy Hr).
    destruct (diabetes_years f); [discriminate | contradiction].
Qed.

Lemma checks_that_never_fire_witness :
  ~ In "Date of Birth" (validate (Cases.other_form None)) /\
  ~ In "Age" (validate (Cases.other_form None)) /\
  ~ In "Years with Diabetes" (validate (Cases.other_form None)).
Proof.
  apply (checks_that_never_fire (Cases.other_form None)). reflexivity.
Defined.

(** X4.  A form the widgets can produce passes the validator exactly when
    the three text boxes are not empty, the gender is not the placeholder,
    both radios are answered and a file is uploaded; nothing else is looked
    at - not the shape of the e-mail address or of the number, not the
    medications. *)
Theorem drawn_form_passes_iff (f : Form) :
  Widgets.drawn f = true ->
  validate f = [] <->
  full_name f <> "" /\ email f <> "" /\ contact f <> "" /\
  gender f <> "Select Gender" /\ diabetes f <> None /\ high_bp f <> None /\
  uploaded_file f <> None.
Proof.
  intros H. destruct (drawn_facts f H) as (Hd & Ha & Hy).
  rewrite validate_nil_iff. split.
  - intros E.
    pose proof (E Spec.FullName) as E1. pose proof (E Spec.Email) as E2.
    pose proof (E Spec.ContactNumber) as E3. pose proof (E Spec.Gender) as E4.
    pose proof (E Spec.DiabetesStatus) as E5.
    pose proof (E Spec.BloodPressureStatus) as E6.
    pose proof (E Spec.ImageUpload) as E7.
    cbn in E1, E2, E3, E4, E5, E6, E7.
    repeat split; try (now apply String.eqb_neq).
    + destruct (diabetes f); [discriminate | discriminate E5].
    + destruct (high_bp f); [discriminate | discriminate E6].
    + destruct (uploaded_file f); [discriminate | discriminate E7].
  - intros (H1 & H2 & H3 & H4 & H5 & H6 & H7) x.
    destruct x; cbn [Spec.required Spec.unset andb];
      try (now apply String.eqb_neq).
    + destruct (dob f); [reflexivity | contradiction].
    + lia.
    + destruct (diabetes f); [reflexivity | contradiction].
    + destruct (diabetes f) as [answer|]; [|reflexivity].
      destruct (String.eqb answer "Yes") eqn:Eyes; [|reflexivity].
      unfold is_yes in Hy. specialize (Hy Eyes).
      destruct (diabetes_years f); [reflexivity | contradiction].
    + destruct (high_bp f); [reflexivity | contradiction].
    + destruct (uploaded_file f); [reflexivity | contradiction].
Qed.

Lemma drawn_form_passes_iff_witness :
  validate (Cases.other_form (Some Stub.tiny_png)) = [] <->
  full_name (Cases.other_form (Some Stub.tiny_png)) <> "" /\
  email (Cases.other_form (Some Stub.tiny_png)) <> "" /\
  contact (Cases.other_form (Some Stub.tiny_png)) <> "" /\
  gender (Cases.other_form (Some Stub.tiny_png)) <> "Select Gender" /\
  diabetes (Cases.other_form (Some Stub.tiny_png)) <> None /\
  high_bp (Cases.other_form (Some Stub.tiny_png)) <> None /\
  uploaded_file (Cases.other_form (Some Stub.tiny_png)) <> None.
Proof.
  apply (drawn_form_passes_iff (Cases.other_form (Some Stub.tiny_png))).
  reflexivity.
Defined.

(* ===================================================================== *)
(** * Further properties: answers the renderer does not expect *)

Section Answers.

Context {L : Lib}.

(** X5.  An answer that is a number or [true] ends the run in an
    uncaught [TypeError] - [in] does not accept it - before anything is
    shown. *)
Theorem scalar_answer_raises (v : json) (h : Heap) :
  Page.is_scalar v = true ->
  Py.truthy v = true ->
  render v h = mkRun (inl TypeError) h [].
Proof.
  intros Hs Ht. unfold render. rewrite Ht.
  destruct v; try discriminate; reflexivity.
Qed.

(** X6.  An answer that is truthy without being a dict - an array or a
    string - never gets result blocks or a backend-error message.  When
    [in] finds both words in it, the notice and the heading are shown and
    the subscript raises [TypeError]; else when [in] finds "error", the
    subscript raises at once; else the generic message is shown. *)
Theorem sequence_answer_outcomes (v : json) (h : Heap) (bp bl be : bool) :
  Page.is_dict v = false ->
  Py.truthy v = true ->
  Py.contains "probabilities" v = inr bp ->
  Py.contains "labels" v = inr bl ->
  Py.contains "error" v = inr be ->
  render v h =
    if bp && bl then mkRun (inl TypeError) h [Page.SUCCESS; Page.HEADING]
    else if be then mkRun (inl TypeError) h []
    else mkRun (inr tt) h [st_error "Unexpected response from backend."].
Proof.
  intros Hd Ht Hp Hl He. unfold render. rewrite Ht, Hp, Hl, He.
  assert (Hg : forall k, Py.getitem v k = inl TypeError)
    by (intros k; destruct v; try reflexivity; discriminate).
  destruct bp, bl, be; cbn [andb];
    repeat (erewrite bind_pure by reflexivity); cbv beta iota;
    rewrite ?bind_emit, ?Hg; reflexivity.
Qed.

End Answers.

Lemma scalar_answer_raises_witness :
  render (L := Stub.lib) (JInt 7) [] = mkRun (inl TypeError) [] [].
Proof.
  apply (scalar_answer_raises (L := Stub.lib) (JInt 7) []); reflexivity.
Defined.

Lemma sequence_answer_outcomes_witness :
  render (L := Stub.lib) (JArr [JStr "labels"; JStr "probabilities"]) [] =
    if true && true
    then mkRun (inl TypeError) [] [Page.SUCCESS; Page.HEADING]
    else if false then mkRun (inl TypeError) [] []
    else mkRun (inr tt) [] [st_error "Unexpected response from backend."].
Proof.
  apply (sequence_answer_outcomes (L := Stub.lib)
           (JArr [JStr "labels"; JStr "probabilities"]) [] true true false);
    reflexivity.
Defined.

(* ===================================================================== *)
(** * Further properties: the characters of a text *)

Lemma characters_nonempty (c : ascii) (s : string) :
  Utf8.characters (String c s) <> [].
Proof.
  cbn [Utf8.characters]. destruct (Utf8.characters s); [discriminate|].
  destruct (Utf8.starts_inside s); discriminate.
Qed.

(** A byte and the continuation bytes after it are one character. *)
Lemma characters_lead (c : ascii) (conts rest : string) :
  forallb Utf8.is_continuation (list_ascii_of_string conts) = true ->
  Utf8.starts_inside rest = false ->
  Utf8.characters (String c (conts ++ rest)) =
  String c conts :: Utf8.characters rest.
Proof.
  revert c. induction conts as [|k conts IH]; intros c Hc Hr.
  - cbn [String.append Utf8.characters].
    destruct rest as [|c' rest]; [reflexivity|].
    destruct (Utf8.characters (String c' rest)) eqn:E;
      [now apply characters_nonempty in E|].
    now rewrite Hr.
  - cbn [list_ascii_of_string forallb] in Hc.
    apply andb_true_iff in Hc as (Hk & Hc).
    cbn [String.append].
    change (Utf8.characters (String c (String k (conts ++ rest)))) with
      (match Utf8.characters (String k (conts ++ rest)) with
       | p :: ps =>
           if Utf8.starts_inside (String k (conts ++ rest))
           then String c p :: ps
           else String c EmptyString :: p :: ps
       | [] => [String c EmptyString]
       end).
    rewrite (IH k Hc Hr). cbn [Utf8.starts_inside]. now rewrite Hk.
Qed.

Lemma continuation_byte (n : N) :
  Utf8.is_continuation (ascii_of_N (128 + n mod 64)) = true.
Proof.
  unfold Utf8.is_continuation.
  rewrite N_ascii_embedding by divmod.
  apply andb_true_iff. split; [apply N.leb_le | apply N.ltb_lt]; divmod.
Qed.

Lemma leading_byte (n : N) :
  (n < 128 \/ 192 <= n < 256)%N ->
  Utf8.is_continuation (ascii_of_N n) = false.
Proof.
  intros H. unfold Utf8.is_continuation.
  rewrite N_ascii_embedding by lia.
  apply andb_false_iff.
  destruct H as [H|H]; [left; apply N.leb_gt | right; apply N.ltb_ge]; lia.
Qed.

(** The encoding of a character: a byte that opens it, then continuation
    bytes. *)
Lemma encode_point_shape (c : N) :
  Utf8.is_code_point c = true ->
  exists lead conts,
    Utf8.encode_point c = String lead conts /\
    Utf8.is_continuation lead = false /\
    forallb Utf8.is_continuation (list_ascii_of_string conts) = true.
Proof.
  unfold Utf8.is_code_point, Utf8.encode_point. intros Hc.
  apply N.ltb_lt in Hc.
  destruct (c <? 128)%N eqn:H1; [apply N.ltb_lt in H1 | apply N.ltb_ge in H1].
  { eexists _, _. split; [reflexivity|]. split; [|reflexivity].
    apply leading_byte. lia. }
  destruct (c <? 2048)%N eqn:H2; [apply N.ltb_lt in H2 | apply N.ltb_ge in H2].
  { eexists _, _. split; [reflexivity|]. split.
    - apply leading_byte. right. divmod.
    - cbn [list_ascii_of_string forallb]. now rewrite continuation_byte. }
  destruct (c <? 65536)%N eqn:H3; [apply N.ltb_lt in H3 | apply N.ltb_ge in H3].
  { eexists _, _. split; [reflexivity|]. split.
    - apply leading_byte. right. divmod.
    - cbn [list_ascii_of_string forallb]. now rewrite !continuation_byte. }
  eexists _, _. split; [reflexivity|]. split.
  - apply leading_byte. right. divmod.
  - cbn [list_ascii_of_string forallb]. now rewrite !continuation_byte.
Qed.

Lemma encode_starts_outside (text : list N) :
  forallb Utf8.is_code_point text = true ->
  Utf8.starts_inside (Utf8.encode text) = false.
Proof.
  destruct text as [|c text]; [reflexivity|].
  cbn [forallb]. intros H. apply andb_true_iff in H as (Hc & _).
  destruct (encode_point_shape c Hc) as (lead & conts & E & Hlead & _).
  unfold Utf8.encode. cbn [map fold_right]. rewrite E.
  cbn [String.append Utf8.starts_inside]. exact Hlead.
Qed.

(** Splitting the encoding of a text gives back its characters, one item
    for each, whatever number of bytes each takes. *)
Lemma characters_encode (text : list N) :
  forallb Utf8.is_code_point text = true ->
  Utf8.characters (Utf8.encode text) = map Utf8.encode_point text.
Proof.
  induction text as [|c text IH]; [reflexivity|].
  cbn [forallb]. intros H. apply andb_true_iff in H as (Hc & Ht).
  destruct (encode_point_shape c Hc) as (lead & conts & E & _ & Hconts).
  change (Utf8.encode (c :: text)) with
    (Utf8.encode_point c ++ Utf8.encode text)%string.
  cbn [map]. rewrite E. cbn [String.append].
  rewrite (characters_lead lead conts _ Hconts (encode_starts_outside _ Ht)).
  now rewrite IH.
Qed.

(* ===================================================================== *)
(** * Further properties: dicts whose entries are not what was agreed *)

Section Entries.

Context {L : Lib}.

(** The first case, up to the loop. *)
Lemma render_both_keys (members : list (string * json)) (h : Heap)
      (lv pv : json) :
  Py.lookup "labels" members = Some lv ->
  Py.lookup "probabilities" members = Some pv ->
  render (JObj members) h =
  match Py.iter lv, Py.iter pv with
  | inl e, _ => mkRun (inl e) h [Page.SUCCESS; Page.HEADING]
  | inr _, inl e => mkRun (inl e) h [Page.SUCCESS; Page.HEADING]
  | inr labels, inr probs =>
      mkRun (result (render_pairs labels probs h))
            (heap_after (render_pairs labels probs h))
            (Page.SUCCESS :: Page.HEADING
               :: trace (render_pairs labels probs h))
  end.
Proof.
  intros Hl Hp. unfold render.
  assert (Hhl : Spec.has "labels" members = true)
    by (unfold Spec.has; now rewrite Hl).
  assert (Hhp : Spec.has "probabilities" members = true)
    by (unfold Spec.has; now rewrite Hp).
  rewrite (truthy_has _ _ Hhl), !has_lookup, Hhp, Hhl.
  erewrite bind_pure by reflexivity.
  erewrite bind_pure by reflexivity.
  cbv beta iota. rewrite !bind_emit. unfold Py.getitem. rewrite Hl, Hp.
  erewrite bind_pure by reflexivity.
  erewrite bind_pure by reflexivity.
  destruct (Py.iter lv) as [e|labels]; [reflexivity|].
  erewrite bind_pure by reflexivity.
  destruct (Py.iter pv) as [e|probs]; [reflexivity|].
  erewrite bind_pure by reflexivity. reflexivity.
Qed.

Lemma iter_scalar (v : json) :
  Page.is_scalar v = true -> Py.iter v = inl TypeError.
Proof. destruct v; try discriminate; reflexivity. Qed.

Lemma iter_errors (v : json) (e : Exn) : Py.iter v = inl e -> e = TypeError.
Proof. destruct v; cbn; congruence. Qed.

(** The loop stops at the first probability [float] refuses, after the
    blocks of the pairs before it. *)
Lemma render_pairs_stops (labels good rest : list json) (bad : json)
      (xs : list Float.float64) (e : Exn) (h : Heap) :
  Forall2 (fun p x => py_float p = inr x) good xs ->
  List.length good < List.length labels ->
  py_float bad = inl e ->
  render_pairs labels (good ++ bad :: rest) h =
  mkRun (inl e) h (map (fun lx => Spec.shows (fst lx) (snd lx))
                       (combine labels xs)).
Proof.
  intros Hgood. revert labels.
  induction Hgood as [|p x good xs Hpx Hgood IH]; intros labels Hlen Hbad.
  - destruct labels as [|label labels]; [cbn in Hlen; lia|].
    cbn [app render_pairs]. unfold bind. rewrite Hbad. reflexivity.
  - destruct labels as [|label labels]; [cbn in Hlen; lia|].
    cbn [app render_pairs].
    erewrite bind_pure by (rewrite Hpx; reflexivity).
    rewrite bind_emit, IH by (cbn [List.length] in Hlen; auto; lia).
    reflexivity.
Qed.

(** X7.  When [labels] or [probabilities] holds a value that cannot be
    iterated - [null], a number, a boolean - the page shows the success
    notice and the heading and the run then ends in an uncaught
    [TypeError], without a result block and without an error message. *)
Theorem scalar_entry_raises (members : list (string * json)) (h : Heap)
        (lv pv : json) :
  Py.lookup "labels" members = Some lv ->
  Py.lookup "probabilities" members = Some pv ->
  Page.is_scalar lv || Page.is_scalar pv = true ->
  render (JObj members) h =
  mkRun (inl TypeError) h [Page.SUCCESS; Page.HEADING].
Proof.
  intros Hl Hp Hs. rewrite (render_both_keys _ _ _ _ Hl Hp).
  destruct (Py.iter lv) as [e|labels] eqn:El.
  - now rewrite (iter_errors _ _ El).
  - destruct (Page.is_scalar lv) eqn:Sl;
      [rewrite (iter_scalar _ Sl) in El; discriminate|].
    cbn [orb] in Hs. now rewrite (iter_scalar _ Hs).
Qed.

(** X8.  A probability that [float] refuses stops the loop where it
    stands: the pairs before it have their blocks, the run ends in the
    exception of [float], and no message tells the user that results are
    missing. *)
Theorem bad_probability_stops_the_list (members : list (string * json))
        (h : Heap) (labels good rest : list json) (bad : json)
        (xs : list Float.float64) (e : Exn) :
  Py.lookup "labels" members = Some (JArr labels) ->
  Py.lookup "probabilities" members = Some (JArr (good ++ bad :: rest)) ->
  Forall2 (fun p x => py_float p = inr x) good xs ->
  List.length good < List.length labels ->
  py_float bad = inl e ->
  render (JObj members) h =
  mkRun (inl e) h
        (Page.SUCCESS :: Page.HEADING
           :: map (fun lx => Spec.shows (fst lx) (snd lx)) (combine labels xs)).
Proof.
  intros Hl Hp Hgood Hlen Hbad.
  rewrite (render_both_keys _ _ _ _ Hl Hp). cbn [Py.iter].
  now rewrite (render_pairs_stops _ _ _ _ _ _ _ Hgood Hlen Hbad).
Qed.

(** X9.  The two entries are zipped as Python iterates them, arrays or
    not.  Labels sent as one string are shown one character to a block,
    in order, as far as the probabilities go - a character being a code
    point, whatever number of bytes its encoding takes. *)
Theorem entries_are_iterated (members : list (string * json)) (h : Heap)
        (lv pv : json) (labels probs : list json) (xs : list Float.float64) :
  Py.lookup "labels" members = Some lv ->
  Py.lookup "probabilities" members = Some pv ->
  Py.iter lv = inr labels ->
  Py.iter pv = inr probs ->
  Forall2 (fun p x => py_float p = inr x)
          (firstn (List.length labels) probs) xs ->
  render (JObj members) h =
    mkRun (inr tt) h
          (Page.SUCCESS :: Page.HEADING
             :: map (fun lx => Spec.shows (fst lx) (snd lx))
                    (combine labels xs)) /\
  (forall text,
      forallb Utf8.is_code_point text = true ->
      lv = JStr (Utf8.encode text) ->
      labels = map (fun c => JStr (Utf8.encode_point c)) text /\
      trace (render (JObj members) h) =
        Page.SUCCESS :: Page.HEADING
          :: map (fun cx =>
                    st_markdown (result_line (Utf8.encode_point (fst cx))
                                             (Float.format_2f (snd cx))))
                 (combine text xs) /\
      List.length xs = Nat.min (List.length text) (List.length probs)).
Proof.
  intros Hl Hp Il Ip Hx.
  assert (Hrun : render (JObj members) h =
                 mkRun (inr tt) h
                   (Page.SUCCESS :: Page.HEADING
                      :: map (fun lx => Spec.shows (fst lx) (snd lx))
                             (combine labels xs))).
  { rewrite (render_both_keys _ _ _ _ Hl Hp), Il, Ip.
    now rewrite (render_pairs_run _ _ _ _ Hx). }
  split; [exact Hrun|].
  intros text Htext ->. cbn [Py.iter] in Il.
  rewrite (characters_encode _ Htext), map_map in Il.
  injection Il as <-. split; [reflexivity|]. split.
  - rewrite Hrun. cbn [trace]. do 2 f_equal.
    clear. revert xs.
    induction text as [|c text IH]; intros xs; [reflexivity|].
    destruct xs as [|x xs]; [reflexivity|].
    cbn [map combine fst snd]. now rewrite IH.
  - apply Forall2_length in Hx.
    rewrite length_firstn, length_map in Hx. lia.
Qed.

End Entries.

Lemma scalar_entry_raises_witness :
  render (L := Stub.lib)
         (JObj [("labels", JNull); ("probabilities", JArr [JInt 1])]) [] =
  mkRun (inl TypeError) [] [Page.SUCCESS; Page.HEADING].
Proof.
  apply (scalar_entry_raises (L := Stub.lib)
           [("labels", JNull); ("probabilities", JArr [JInt 1])] []
           JNull (JArr [JInt 1])); reflexivity.
Defined.

Lemma bad_probability_stops_the_list_witness :
  render (L := Stub.lib)
         (JObj [("labels", JArr [JStr "Grade 1"; JStr "Grade 2"]);
                ("probabilities", JArr ([JFloat Stub.d72_345] ++ JNull :: []))])
         [] =
  mkRun (inl TypeError) []
        (Page.SUCCESS :: Page.HEADING
           :: map (fun lx => Spec.shows (L := Stub.lib) (fst lx) (snd lx))
                  (combine [JStr "Grade 1"; JStr "Grade 2"] [Stub.d72_345])).
Proof.
  apply (bad_probability_stops_the_list (L := Stub.lib)
           [("labels", JArr [JStr "Grade 1"; JStr "Grade 2"]);
            ("probabilities", JArr ([JFloat Stub.d72_345] ++ JNull :: []))]
           [] [JStr "Grade 1"; JStr "Grade 2"] [JFloat Stub.d72_345] []
           JNull [Stub.d72_345] TypeError).
  - reflexivity.
  - reflexivity.
  - repeat constructor.
  - cbn. lia.
  - reflexivity.
Defined.

Lemma entries_are_iterated_witness :
  let members :=
    [("labels", JStr (Cases.euro ++ "A"));
     ("probabilities", JArr [JFloat Stub.d72_345; JFloat Stub.d27_655])] in
  render (L := Stub.lib) (JObj members) [] =
    mkRun (inr tt) []
          (Page.SUCCESS :: Page.HEADING
             :: map (fun lx => Spec.shows (L := Stub.lib) (fst lx) (snd lx))
                    (combine [JStr Cases.euro; JStr "A"]
                             [Stub.d72_345; Stub.d27_655])) /\
  (forall text,
      forallb Utf8.is_code_point text = true ->
      JStr (Cases.euro ++ "A") = JStr (Utf8.encode text) ->
      [JStr Cases.euro; JStr "A"] =
        map (fun c => JStr (Utf8.encode_point c)) text /\
      trace (render (L := Stub.lib) (JObj members) []) =
        Page.SUCCESS :: Page.HEADING
          :: map (fun cx =>
                    st_markdown (result_line (Utf8.encode_point (fst cx))
                                             (Float.format_2f (snd cx))))
                 (combine text [Stub.d72_345; Stub.d27_655]) /\
      List.length [Stub.d72_345; Stub.d27_655] =
        Nat.min (List.length text)
                (List.length [JFloat Stub.d72_345; JFloat Stub.d27_655])).
Proof.
  cbv zeta.
  apply (entries_are_iterated (L := Stub.lib)
           [("labels", JStr (Cases.euro ++ "A"));
            ("probabilities", JArr [JFloat Stub.d72_345; JFloat Stub.d27_655])]
           [] (JStr (Cases.euro ++ "A"))
           (JArr [JFloat Stub.d72_345; JFloat Stub.d27_655])
           [JStr Cases.euro; JStr "A"]
           [JFloat Stub.d72_345; JFloat Stub.d27_655]
           [Stub.d72_345; Stub.d27_655]).
  - reflexivity.
  - reflexivity.
  - reflexivity.
  - reflexivity.
  - repeat constructor.
Defined.

(* ===================================================================== *)
(** * Further properties: how a probability is printed *)

Lemma of_int_small (z : Z) :
  (Z.abs z < 9007199254740992)%Z ->
  Float.of_int z = Some (Float.Fin (z <? 0)%Z (Z.abs_N z) 0).
Proof.
  intros H. unfold Float.of_int.
  change (2 ^ 53)%N with 9007199254740992%N.
  replace (Z.abs_N z <? 9007199254740992)%N with true; [reflexivity|].
  symmetry. apply N.ltb_lt. lia.
Qed.

(** X10.  A probability sent as a JSON integer below 2^53 in size is
    printed as that integer followed by ".00"; [true] and [false] print as
    "1.00" and "0.00". *)
Theorem integer_probability_gets_zeros {L : Lib} (z : Z) :
  (Z.abs z < 2 ^ 53)%Z ->
  (exists x,
      py_float (JInt z) = inr x /\
      Float.format_2f x = (dec_of_Z z ++ ".00")%string) /\
  (forall b,
      exists x,
        py_float (JBool b) = inr x /\
        Float.format_2f x = if b then "1.00" else "0.00").
Proof.
  intros H. split.
  - exists (Float.Fin (z <? 0)%Z (Z.abs_N z) 0). split.
    + cbn [py_float]. rewrite of_int_small; [reflexivity|].
      change (2 ^ 53)%Z with 9007199254740992%Z in H. exact H.
    + unfold Float.format_2f, Float.hundredths, dec_of_Z.
      rewrite N.div_mul by discriminate.
      rewrite N.Div0.mod_mul.
      change (Float.two_digits 0) with "00".
      destruct (z <? 0)%Z eqn:Hz.
      * replace (Z.to_N (- z)) with (Z.abs_N z) by lia. reflexivity.
      * replace (Z.to_N z) with (Z.abs_N z) by lia. reflexivity.
  - intros [|]; eexists; split; reflexivity.
Qed.

Lemma integer_probability_gets_zeros_witness :
  (exists x,
      py_float (L := Stub.lib) (JInt 72) = inr x /\
      Float.format_2f x = (dec_of_Z 72 ++ ".00")%string) /\
  (forall b,
      exists x,
        py_float (L := Stub.lib) (JBool b) = inr x /\
        Float.format_2f x = if b then "1.00" else "0.00").
Proof.
  apply (integer_probability_gets_zeros (L := Stub.lib) 72). reflexivity.
Defined.

Lemma round_half_even_lower (n d : N) :
  (n / d <= Float.round_half_even n d)%N.
Proof.
  unfold Float.round_half_even.
  destruct (2 * (n mod d) ?= d)%N; [destruct (N.even (n / d))| |]; lia.
Qed.

Lemma of_int_overflow (z : Z) :
  (2 ^ 1024 <= Z.abs z)%Z -> Float.of_int z = None.
Proof.
  intros H. unfold Float.of_int.
  set (a := Z.abs_N z).
  assert (Ha : (2 ^ 1024 <= a)%N).
  { subst a. apply N2Z.inj_le. rewrite N2Z.inj_pow, N2Z.inj_abs_N.
    exact H. }
  assert (Hpos : (0 < a)%N).
  { eapply N.lt_le_trans; [|exact Ha].
    apply N.neq_0_lt_0, N.pow_nonzero. discriminate. }
  assert (Hlog : (1024 <= N.log2 a)%N) by (now apply N.log2_le_pow2).
  replace (a <? 2 ^ 53)%N with false.
  2:{ symmetry. apply N.ltb_ge.
      eapply N.le_trans; [|exact Ha]. apply N.pow_le_mono_r; lia. }
  set (k := (N.log2 a - 52)%N).
  set (m := Float.round_half_even a (2 ^ k)).
  replace (2 ^ 1024 <=? m * 2 ^ k)%N with true; [reflexivity|].
  symmetry. apply N.leb_le.
  assert (Hk : (2 ^ k <> 0)%N) by (apply N.pow_nonzero; discriminate).
  assert (Hsplit : (2 ^ N.log2 a = 2 ^ k * 2 ^ 52)%N).
  { rewrite <- N.pow_add_r. f_equal. subst k. lia. }
  assert (Hq : (2 ^ 52 <= a / 2 ^ k)%N).
  { apply N.div_le_lower_bound; [exact Hk|].
    rewrite <- Hsplit. now apply N.log2_spec. }
  assert (Hm : (2 ^ 52 <= m)%N).
  { eapply N.le_trans; [exact Hq | apply round_half_even_lower]. }
  eapply N.le_trans; [apply (N.pow_le_mono_r 2 1024 (N.log2 a)); lia|].
  rewrite Hsplit, N.mul_comm. apply N.mul_le_mono_r. exact Hm.
Qed.

(** X11.  A probability sent as a JSON integer of size 2^1024 or more is
    beyond the doubles: [float] raises [OverflowError], which nothing
    catches, and the page is left with the notice and the heading. *)
Theorem huge_integer_probability_raises {L : Lib} (h : Heap)
        (members : list (string * json)) (label : json) (labels rest : list json)
        (z : Z) :
  (2 ^ 1024 <= Z.abs z)%Z ->
  Py.lookup "labels" members = Some (JArr (label :: labels)) ->
  Py.lookup "probabilities" members = Some (JArr (JInt z :: rest)) ->
  py_float (JInt z) = inl OverflowError /\
  render (JObj members) h =
    mkRun (inl OverflowError) h [Page.SUCCESS; Page.HEADING].
Proof.
  intros Hz Hl Hp.
  assert (Hf : py_float (JInt z) = inl OverflowError)
    by (cbn [py_float]; now rewrite of_int_overflow).
  split; [exact Hf|].
  rewrite (render_both_keys _ _ _ _ Hl Hp). cbn [Py.iter].
  pose proof (render_pairs_stops (label :: labels) [] rest (JInt z) []
                OverflowError h (Forall2_nil _) ltac:(cbn; lia) Hf) as Hs.
  cbn [app] in Hs. now rewrite Hs.
Qed.

Lemma huge_integer_probability_raises_witness :
  py_float (L := Stub.lib) (JInt (2 ^ 1024)) = inl OverflowError /\
  render (L := Stub.lib)
         (JObj [("labels", JArr [JStr "Grade 1"]);
                ("probabilities", JArr [JInt (2 ^ 1024)])]) [] =
    mkRun (inl OverflowError) [] [Page.SUCCESS; Page.HEADING].
Proof.
  apply (huge_integer_probability_raises (L := Stub.lib) []
           [("labels", JArr [JStr "Grade 1"]);
            ("probabilities", JArr [JInt (2 ^ 1024)])]
           (JStr "Grade 1") [] [] (2 ^ 1024)).
  - vm_compute. discriminate.
  - reflexivity.
  - reflexivity.
Defined.

(* ===================================================================== *)
(** * Further properties: every run of the script, whatever the library *)

Section AnyRun.

Context {L : Lib}.

Lemma bind_lift {A B} (x : Exn + A) (k : A -> M B) (h : Heap) :
  bind (lift x) k h =
  match x with
  | inl e => mkRun (inl e) h []
  | inr a => k a h
  end.
Proof. destruct x; [reflexivity | now apply bind_pure]. Qed.

Lemma silent_lift {A} (x : Exn + A) : Page.silent (lift x).
Proof. intros h. now destruct x. Qed.

Lemma silent_bind {A B} (m : M A) (k : A -> M B) :
  Page.silent m -> (forall a, Page.silent (k a)) -> Page.silent (bind m k).
Proof.
  intros Hm Hk h. specialize (Hm h). unfold bind.
  destruct (m h) as [[e|a] h' t]; cbn [result heap_after trace] in *.
  - exact Hm.
  - rewrite Hm. apply Hk.
Qed.

Lemma silent_CLAHE_apply (r : nat) (src : ndarray) :
  Page.silent (CLAHE_apply r src).
Proof.
  intros h. unfold CLAHE_apply.
  destruct (nth_error h r); [|reflexivity].
  destruct (shape src) as [|? [|? [|? ?]]]; reflexivity.
Qed.

(** [process_image] draws nothing and reaches no network, with any
    library. *)
Lemma silent_process_image (image : Image) :
  Page.silent (process_image image).
Proof.
  unfold process_image. cbv zeta.
  apply silent_bind; [apply silent_lift|]. intros bgr.
  apply silent_bind; [apply silent_lift|]. intros [[b g] r].
  apply silent_bind; [intros h; reflexivity|]. intros clahe.
  do 3 (apply silent_bind; [apply silent_CLAHE_apply|]; intros ?).
  do 3 (apply silent_bind; [apply silent_lift|]; intros ?).
  intros h. reflexivity.
Qed.

(** What the renderer leaves, for any answer. *)
Lemma rendered_render (v : json) (h : Heap) :
  Page.rendered (trace (render v h)).
Proof.
  unfold render. destruct (Py.truthy v); [|left; reflexivity].
  rewrite bind_lift.
  destruct (Py.contains "probabilities" v) as [e|bp]; [left; reflexivity|].
  assert (Herr :
    Page.rendered
      (trace (bind (lift (Py.contains "error" v))
                (fun has_error : bool =>
                   if has_error
                   then bind (lift (Py.getitem v "error"))
                          (fun e => emit (st_error ("Backend Error: "
                                                      ++ py_str e)))
                   else emit (st_error "Unexpected response from backend."))
                h))).
  { rewrite bind_lift.
    destruct (Py.contains "error" v) as [e|[|]]; [left; reflexivity| |].
    - rewrite bind_lift.
      destruct (Py.getitem v "error"); [left; reflexivity|].
      right; left. eexists. reflexivity.
    - right; left. eexists. reflexivity. }
  destruct bp.
  - rewrite bind_lift.
    destruct (Py.contains "labels" v) as [e|[|]]; [left; reflexivity| |].
    + rewrite !bind_emit. cbn [trace]. right; right.
      rewrite !bind_lift.
      destruct (Py.getitem v "labels") as [e|lv];
        [eexists; split; reflexivity|].
      rewrite !bind_lift.
      destruct (Py.getitem v "probabilities") as [e|pv];
        [eexists; split; reflexivity|].
      rewrite !bind_lift.
      destruct (Py.iter lv) as [e|labels]; [eexists; split; reflexivity|].
      rewrite !bind_lift.
      destruct (Py.iter pv) as [e|probs]; [eexists; split; reflexivity|].
      eexists. split; [reflexivity|]. apply render_pairs_markdown.
    + exact Herr.
  - erewrite bind_pure by reflexivity. exact Herr.
Qed.

(** The events of a run of [main], case by case. *)
Lemma main_trace_cases (net : Network) (f : Form) (h : Heap) :
  trace (main net f h) = [] \/
  (exists message, trace (main net f h) = [st_error message]) \/
  trace (main net f h) = [Page.SPINNER] \/
  (exists p, trace (main net f h) =
             [Page.SPINNER; st_image p "Processed Image"]) \/
  (exists p payload rest,
      trace (main net f h) =
        Page.SPINNER :: st_image p "Processed Image"
          :: requests_post PREDICT_URL payload :: rest /\
      Page.rendered rest /\
      button f = true /\ validate f = [] /\
      exists bytes image,
        uploaded_file f = Some bytes /\ image_open bytes = Some image).
Proof.
  unfold main. destruct (button f) eqn:Hb; [|left; reflexivity].
  unfold submit.
  destruct (validate f) as [|name names] eqn:Hv;
    [|right; left; eexists; reflexivity].
  rewrite bind_emit. cbn [trace]. unfold Image_open.
  destruct (uploaded_file f) as [bytes|] eqn:Hu;
    [|right; right; left; reflexivity].
  destruct (image_open bytes) as [image|] eqn:Hi;
    [|right; right; left; reflexivity].
  erewrite bind_pure by reflexivity.
  pose proof (silent_process_image image h) as Hsilent.
  destruct (process_image image h) as [[e|[original p]] h1 t1] eqn:Hpi;
    cbn [trace] in Hsilent; subst t1.
  - right; right; left. unfold bind at 1. now rewrite Hpi.
  - erewrite bind_pure by exact Hpi. cbv beta iota.
    rewrite bind_emit. cbn [trace].
    destruct (Png.save p) as [e|png] eqn:Hsave.
    + right; right; right; left. exists p.
      unfold predict_image. rewrite Hsave. reflexivity.
    + right; right; right; right.
      pose proof (predict_image_run net p png h1 Hsave) as Hp.
      exists p, (Spec.payload_of png).
      destruct (request net (Spec.payload_of png)) as [text|answer];
        rewrite (bind_run _ _ _ _ _ _ Hp); cbn [trace app].
      * eexists. split; [reflexivity|].
        split; [right; left; eexists; reflexivity|]. eauto 10.
      * eexists. split; [reflexivity|].
        split; [apply rendered_render|]. eauto 10.
Qed.

Lemma rendered_errors (t : list Event) :
  Page.rendered t ->
  List.length (filter Spec.is_error t) <= 1 /\
  posts t = [] /\
  (In Page.SUCCESS t -> filter Spec.is_error t = []).
Proof.
  assert (Hmd : forall blocks,
             forallb Spec.is_markdown blocks = true ->
             filter Spec.is_error blocks = [] /\ posts blocks = []).
  { induction blocks as [|b blocks IH]; [now split|].
    cbn [forallb]. intros H. apply andb_true_iff in H as (Hb & Hbs).
    destruct (IH Hbs) as (IH1 & IH2).
    destruct b; try discriminate. cbn. now rewrite IH1. }
  intros [->|[(message & ->)|(blocks & -> & Hblocks)]].
  - split; [cbn; lia|]. split; [reflexivity|]. intros [].
  - split; [cbn; lia|]. split; [reflexivity|].
    intros [H|[]]. discriminate H.
  - destruct (Hmd blocks Hblocks) as (H1 & H2).
    unfold posts in *.
    cbn [filter Spec.is_error Page.SUCCESS Page.HEADING is_post].
    rewrite H1, H2. split; [cbn; lia|]. split; reflexivity.
Qed.

End AnyRun.

(** X12.  No run of the script, with any form, network and library, sends
    more than one request; a request goes to the prediction URL, and is
    sent only when the button was pressed, the validator found nothing
    missing and the upload was decoded. *)
Theorem at_most_one_request {L : Lib} (net : Network) (f : Form) (h : Heap) :
  List.length (posts (trace (main net f h))) <= 1 /\
  (forall e,
      In e (posts (trace (main net f h))) ->
      (exists payload, e = requests_post PREDICT_URL payload) /\
      button f = true /\ validate f = [] /\
      exists bytes image,
        uploaded_file f = Some bytes /\ image_open bytes = Some image).
Proof.
  destruct (main_trace_cases net f h)
    as [E|[(m & E)|[E|[(p & E)|(p & payload & rest & E & Hr & Hv)]]]];
    rewrite E.
  - split; [cbn; lia | intros e []].
  - split; [cbn; lia | intros e []].
  - split; [cbn; lia | intros e []].
  - split; [cbn; lia | intros e []].
  - destruct (rendered_errors rest Hr) as (_ & Hp & _).
    unfold posts in *. cbn [filter is_post Page.SPINNER]. rewrite Hp.
    split; [cbn; lia|]. intros e [<-|[]]. split; [eauto | exact Hv].
Qed.

(** X13.  No run of the script shows more than one error message, and none
    shows an error message together with the success notice. *)
Theorem at_most_one_error {L : Lib} (net : Network) (f : Form) (h : Heap) :
  List.length (filter Spec.is_error (trace (main net f h))) <= 1 /\
  (In (st_success "Analysis Complete!") (trace (main net f h)) ->
   filter Spec.is_error (trace (main net f h)) = []).
Proof.
  destruct (main_trace_cases net f h)
    as [E|[(m & E)|[E|[(p & E)|(p & payload & rest & E & Hr & _)]]]];
    rewrite E.
  - split; [cbn; lia | reflexivity].
  - split; [cbn; lia|]. intros [H|[]]. discriminate H.
  - split; [cbn; lia | reflexivity].
  - split; [cbn; lia | reflexivity].
  - destruct (rendered_errors rest Hr) as (Hone & _ & Hsuccess).
    cbn [filter Spec.is_error Page.SPINNER]. split; [exact Hone|].
    intros [H|[H|[H|H]]]; try discriminate H. now apply Hsuccess.
Qed.

(** X14.  What the patient typed changes nothing past the validator: two
    complete forms with the same uploaded file run alike, event for event -
    the request carries the picture and no field of the form. *)
Theorem patient_fields_change_nothing {L : Lib} (net : Network) (f1 f2 : Form)
        (h : Heap) :
  button f1 = true -> button f2 = true ->
  validate f1 = [] -> validate f2 = [] ->
  uploaded_file f1 = uploaded_file f2 ->
  main net f1 h = main net f2 h.
Proof.
  intros Hb1 Hb2 Hv1 Hv2 Hu. unfold main, submit.
  now rewrite Hb1, Hb2, Hv1, Hv2, Hu.
Qed.

Lemma patient_fields_change_nothing_witness :
  main (L := Stub.lib) (Stub.answers 200 Stub.grades)
       (Stub.form (Some Stub.tiny_png)) [] =
  main (L := Stub.lib) (Stub.answers 200 Stub.grades)
       (Cases.other_form (Some Stub.tiny_png)) [].
Proof.
  apply (patient_fields_change_nothing (L := Stub.lib)); reflexivity.
Defined.

Section ValidRuns.

Context {L : Lib} {Laws : LibLaws L}.

(** X15.  When the request fails - it raises, the status is an error, the
    body is no JSON - the run of a complete form still ends normally: the
    processed picture stays on the page, followed by one message that
    names the text of the exception, and no result. *)
Theorem failed_request_run (net : Network) (f : Form) (h : Heap)
        (bytes : list byte) (image : Image) (text : string) :
  button f = true ->
  validate f = [] ->
  uploaded_file f = Some bytes ->
  image_open bytes = Some image ->
  (forall payload, request net payload = inl text) ->
  result (main net f h) = inr tt /\
  exists payload,
    trace (main net f h) =
    [Page.SPINNER;
     st_image (Spec.equalised (resize (224, 224) (convert "RGB" image)))
              "Processed Image";
     requests_post PREDICT_URL payload;
     st_error ("Prediction API Error: " ++ text)].
Proof.
  intros Hb Hv Hu Hi Hnet.
  destruct (main_valid_run net f h bytes image Hb Hv Hu Hi)
    as (png & h' & _ & _ & Hrun).
  rewrite Hnet in Hrun. cbv zeta in Hrun. rewrite Hrun.
  split; [reflexivity|]. exists (Spec.payload_of png). reflexivity.
Qed.

Lemma truthy_falsy (v : json) : Py.truthy v = false <-> Page.falsy v.
Proof.
  unfold Page.falsy. split.
  - destruct v as [|b|z|x|s|items|members]; cbn; intros H.
    + tauto.
    + subst b. tauto.
    + apply negb_false_iff, Z.eqb_eq in H. subst z. tauto.
    + destruct x as [|neg|neg m e]; try discriminate. cbn in H.
      apply negb_false_iff, N.eqb_eq in H. subst m.
      right; right; right; left. eauto.
    + apply negb_false_iff, String.eqb_eq in H. subst s. tauto.
    + destruct items; [tauto | discriminate].
    + destruct members; [|discriminate]. do 6 right. reflexivity.
  - intros [->|[->|[->|[(neg & e & ->)|[->|[->| ->]]]]]]; reflexivity.
Qed.

(** X16.  An answer that is false for [if predictions:] - [null],
    [false], zero, the empty string, the empty array, the empty dict, and
    nothing else - leaves the page as the request left it: no result and
    no message, although the service did answer. *)
Theorem falsy_answer_is_silent (net : Network) (f : Form) (h : Heap)
        (bytes : list byte) (image : Image) (v : json) :
  button f = true ->
  validate f = [] ->
  uploaded_file f = Some bytes ->
  image_open bytes = Some image ->
  (forall payload, request net payload = inr v) ->
  Page.falsy v ->
  result (main net f h) = inr tt /\
  (exists payload,
      trace (main net f h) =
      [Page.SPINNER;
       st_image (Spec.equalised (resize (224, 224) (convert "RGB" image)))
                "Processed Image";
       requests_post PREDICT_URL payload]) /\
  (forall w, Page.falsy w <-> Py.truthy w = false).
Proof.
  intros Hb Hv Hu Hi Hnet Hfalse.
  apply truthy_falsy in Hfalse.
  destruct (main_valid_run net f h bytes image Hb Hv Hu Hi)
    as (png & h' & _ & _ & Hrun).
  rewrite Hnet in Hrun. unfold render in Hrun. rewrite Hfalse in Hrun.
  cbv zeta in Hrun. rewrite Hrun.
  split; [reflexivity|]. split.
  - exists (Spec.payload_of png). reflexivity.
  - intros w. symmetry. apply truthy_falsy.
Qed.

(** X17.  [process_image] leaves the objects of the interpreter as they
    were and adds one: the CLAHE object it made, with clip limit 2.0 and
    tiles 8x8. *)
Theorem process_image_adds_one_object (image : Image) (h : Heap) :
  exists st,
    heap_after (process_image image h) = h ++ [mkCLAHE two (8, 8) st] /\
    List.length (heap_after (process_image image h)) = S (List.length h) /\
    (forall r c,
        nth_error h r = Some c ->
        nth_error (heap_after (process_image image h)) r = Some c).
Proof.
  rewrite process_image_run. cbn [heap_after]. eexists.
  split; [reflexivity|]. split.
  - rewrite length_app. cbn. lia.
  - intros r c H. rewrite nth_error_app1; [exact H|].
    apply nth_error_Some. congruence.
Qed.

Lemma interleave_deinterleave (l : list byte) (n : nat) :
  List.length l = 3 * n ->
  let '(p0, p1, p2) := cv2.deinterleave l in cv2.interleave p0 p1 p2 = l.
Proof.
  revert n.
  induction l as [| | |c0 c1 c2 l IH] using list_ind3; intros n H;
    cbn [List.length] in H.
  - reflexivity.
  - lia.
  - lia.
  - destruct n as [|n]; [lia|].
    cbn [cv2.deinterleave]. specialize (IH n ltac:(lia)).
    destruct (cv2.deinterleave l) as [[p0 p1] p2].
    cbn [cv2.interleave]. now rewrite IH.
Qed.

(** X18.  The channel bookkeeping of [process_image] loses nothing: with
    an equaliser that hands every plane back as it got it, the processed
    picture is the resized source, byte for byte - whatever changes the
    picture is CLAHE. *)
Theorem bookkeeping_is_lossless (image : Image) (h : Heap) :
  (forall c g st a, fst (clahe_apply c g st a) = a) ->
  result (process_image image h) =
  inr (resize (224, 224) (convert "RGB" image),
       resize (224, 224) (convert "RGB" image)).
Proof.
  intros Hid. rewrite process_image_run. cbn [result].
  fold (Spec.resized image). do 2 f_equal.
  pose proof (resized_mode image) as Hm.
  pose proof (resized_size image) as Hs.
  pose proof (interleave_deinterleave _ _ (resized_length image)) as Hl.
  unfold Spec.equalised, Spec.equalised_planes.
  destruct (cv2.deinterleave (data (Spec.resized image))) as [[pr pg] pb].
  rewrite !Hid. cbn [Spec.plane buf].
  destruct (Spec.resized image) as [m s d]. cbn [mode size data] in *.
  now subst m d.
Qed.

End ValidRuns.

Lemma plain_laws : LibLaws Cases.plain.
Proof.
  constructor.
  - intros i. split; [reflexivity|].
    unfold wf_image. cbn [convert Cases.plain Stub.blank data size mode].
    apply repeat_length.
  - intros s i. repeat split.
    unfold wf_image. cbn [resize Cases.plain Stub.blank data size mode].
    apply repeat_length.
  - intros c g st a. split; reflexivity.
Qed.

Lemma failed_request_run_witness :
  result (main (L := Stub.lib) Cases.down (Stub.form (Some Stub.tiny_png)) [])
    = inr tt /\
  exists payload,
    trace (main (L := Stub.lib) Cases.down (Stub.form (Some Stub.tiny_png)) [])
    =
    [Page.SPINNER;
     st_image (Spec.equalised (L := Stub.lib)
                 (resize (Lib := Stub.lib) (224, 224)
                    (convert (Lib := Stub.lib) "RGB"
                       (Stub.blank "L" (1, 1) Byte.x00))))
              "Processed Image";
     requests_post PREDICT_URL payload;
     st_error ("Prediction API Error: " ++ "connection refused")].
Proof.
  apply (failed_request_run (L := Stub.lib) (Laws := stub_laws) Cases.down
           (Stub.form (Some Stub.tiny_png)) [] Stub.tiny_png
           (Stub.blank "L" (1, 1) Byte.x00) "connection refused");
    reflexivity.
Defined.

Lemma falsy_answer_is_silent_witness :
  result (main (L := Stub.lib) (Stub.answers 200 JNull)
               (Stub.form (Some Stub.tiny_png)) []) = inr tt /\
  (exists payload,
      trace (main (L := Stub.lib) (Stub.answers 200 JNull)
                  (Stub.form (Some Stub.tiny_png)) []) =
      [Page.SPINNER;
       st_image (Spec.equalised (L := Stub.lib)
                   (resize (Lib := Stub.lib) (224, 224)
                      (convert (Lib := Stub.lib) "RGB"
                         (Stub.blank "L" (1, 1) Byte.x00))))
                "Processed Image";
       requests_post PREDICT_URL payload]) /\
  (forall w, Page.falsy w <-> Py.truthy w = false).
Proof.
  apply (falsy_answer_is_silent (L := Stub.lib) (Laws := stub_laws)
           (Stub.answers 200 JNull) (Stub.form (Some Stub.tiny_png)) []
           Stub.tiny_png (Stub.blank "L" (1, 1) Byte.x00) JNull);
    try reflexivity.
  left. reflexivity.
Defined.

Lemma process_image_adds_one_object_witness :
  exists st,
    heap_after (process_image (L := Stub.lib) (Stub.blank "L" (1, 1) Byte.x07)
                  [mkCLAHE (L := Stub.lib) two (8, 8) 5]) =
      [mkCLAHE (L := Stub.lib) two (8, 8) 5] ++ [mkCLAHE two (8, 8) st] /\
    List.length
      (heap_after (process_image (L := Stub.lib)
                     (Stub.blank "L" (1, 1) Byte.x07)
                     [mkCLAHE (L := Stub.lib) two (8, 8) 5])) =
      S (List.length [mkCLAHE (L := Stub.lib) two (8, 8) 5]) /\
    (forall r c,
        nth_error [mkCLAHE (L := Stub.lib) two (8, 8) 5] r = Some c ->
        nth_error
          (heap_after (process_image (L := Stub.lib)
                         (Stub.blank "L" (1, 1) Byte.x07)
                         [mkCLAHE (L := Stub.lib) two (8, 8) 5])) r = Some c).
Proof.
  exact (process_image_adds_one_object (L := Stub.lib) (Laws := stub_laws)
           (Stub.blank "L" (1, 1) Byte.x07)
           [mkCLAHE (L := Stub.lib) two (8, 8) 5]).
Defined.

Lemma bookkeeping_is_lossless_witness :
  result (process_image (L := Cases.plain) (Stub.blank "L" (1, 1) Byte.x07) [])
  = inr (resize (Lib := Cases.plain) (224, 224)
           (convert (Lib := Cases.plain) "RGB" (Stub.blank "L" (1, 1) Byte.x07)),
         resize (Lib := Cases.plain) (224, 224)
           (convert (Lib := Cases.plain) "RGB" (Stub.blank "L" (1, 1) Byte.x07))).
Proof.
  apply (bookkeeping_is_lossless (L := Cases.plain) (Laws := plain_laws)
           (Stub.blank "L" (1, 1) Byte.x07) []).
  intros c g st a. reflexivity.
Defined.
